(** * Label generator: a shallow embedding of [generate_label2.py]

    The Python module turns the rows of a spreadsheet into filled SVG
    templates and hands them to a PDF converter.  This development embeds
    its pure core: the validator [contains_non_english_chars], the layout
    loop [create_centered_tspan_elements], the placeholder substitution
    [replace_template_variables], the file-name sanitiser
    [sanitize_filename] and the row loop of
    [generate_label2_from_dataframe].

    Conventions.
    - A Python [str] is a sequence of Unicode code points: [list N].
    - A Python [float] is a binary64 value: Rocq's primitive [float].
    - [bytes] is [list Byte.byte].
    - A call that raises returns [None]: the run on a frame of fewer than
      three columns (IndexError) or on one whose rows cannot be read
      because a label is repeated (ValueError).
    - The two names the module gets from its environment, the flag
      [HAS_CAIROSVG] and the converter [cairosvg.svg2pdf], are section
      variables, as are the two tables of the Python runtime that the code
      reaches but never depends on ([repr] of a float, the upper-case
      mapping of non-ASCII characters). *)

From Stdlib Require Import NArith ZArith List Bool Lia.
From Stdlib.Strings Require Import Ascii String Byte.
From Stdlib Require Import PrimFloat SpecFloat FloatOps.
Import ListNotations.

#[local] Set Warnings "-inexact-float".
#[local] Open Scope N_scope.

(* ================================================================== *)
(** ** Python strings *)

Definition char := N.
Definition str := list char.

(** An ASCII literal of the source, character by character. *)
Definition lit (s : string) : str := map N_of_ascii (list_ascii_of_string s).

(** The double quote, which the literals of this file cannot hold. *)
Definition dq : str := [34].

(** Truth value of a string: [if s:] holds for the non-empty ones. *)
Definition truthy {A : Type} (s : list A) : bool :=
  match s with [] => false | _ :: _ => true end.

(** An optional result is there. *)
Definition is_some {A : Type} (o : option A) : bool :=
  match o with Some _ => true | None => false end.

Fixpoint str_eqb (a b : str) : bool :=
  match a, b with
  | [], [] => true
  | x :: a', y :: b' => (x =? y) && str_eqb a' b'
  | _, _ => false
  end.

Fixpoint startswith (s prefix : str) {struct prefix} : bool :=
  match prefix, s with
  | [], _ => true
  | p :: prefix', c :: s' => (p =? c) && startswith s' prefix'
  | _ :: _, [] => false
  end.

(** [sub in s] for strings: [sub] occurs in [s] as a substring. *)
Fixpoint str_in (sub s : str) : bool :=
  startswith s sub ||
  match s with
  | [] => false
  | _ :: s' => str_in sub s'
  end.

(** [c in [..]] for a list of one-character strings. *)
Definition char_in (c : char) (l : list char) : bool := existsb (N.eqb c) l.

(** [str.isspace] on one character: the characters [str.strip()] removes. *)
Definition isspace (c : char) : bool :=
  ((0x09 <=? c) && (c <=? 0x0D)) || ((0x1C <=? c) && (c <=? 0x20))
  || (c =? 0x85) || (c =? 0xA0) || (c =? 0x1680)
  || ((0x2000 <=? c) && (c <=? 0x200A))
  || (c =? 0x2028) || (c =? 0x2029) || (c =? 0x202F) || (c =? 0x205F)
  || (c =? 0x3000).

Fixpoint lstrip (s : str) : str :=
  match s with
  | [] => []
  | c :: s' => if isspace c then lstrip s' else s
  end.

Definition rstrip (s : str) : str := rev (lstrip (rev s)).

(** [s.strip()] *)
Definition strip (s : str) : str := rstrip (lstrip s).

(** The scan of [s.replace(old, new)] for a non-empty [old]: [skip] counts
    the characters of a match that are still to be passed over. *)
Fixpoint replace_scan (old new : str) (skip : nat) (s : str) : str :=
  match s with
  | [] => []
  | c :: s' =>
      match skip with
      | S k => replace_scan old new k s'
      | O =>
          if startswith s old
          then new ++ replace_scan old new (Nat.pred (List.length old)) s'
          else c :: replace_scan old new O s'
      end
  end.

(** [s.replace(old, new)]: every occurrence, left to right, not
    overlapping.  An empty [old] matches between every two characters. *)
Definition replace (s old new : str) : str :=
  match old with
  | [] => new ++ flat_map (fun c => c :: new) s
  | _ :: _ => replace_scan old new O s
  end.

(** [s.split(sep)] for a one-character separator. *)
Fixpoint split (sep : char) (s : str) : list str :=
  match s with
  | [] => [[]]
  | c :: s' =>
      if c =? sep then [] :: split sep s'
      else match split sep s' with
           | [] => [[c]]
           | piece :: pieces => (c :: piece) :: pieces
           end
  end.

(** [''.join(l)] *)
Definition join (l : list str) : str := List.concat l.

(** [s[:n]] *)
Definition slice_to (n : nat) (s : str) : str := firstn n s.

Definition ascii_upper (c : char) : char :=
  if (0x61 <=? c) && (c <=? 0x7A) then c - 32 else c.

(** [s.upper()]: character by character; outside ASCII the mapping is the
    table [unicode_upper] of the runtime (one character may give several). *)
Definition upper (unicode_upper : char -> str) (s : str) : str :=
  flat_map (fun c => if c <? 128 then [ascii_upper c] else unicode_upper c) s.

(** [d.get(key, default)] on a dict literal, kept as its list of items. *)
Fixpoint dict_get (d : list (str * str)) (key default : str) : str :=
  match d with
  | [] => default
  | (k, v) :: d' => if str_eqb k key then v else dict_get d' key default
  end.

(* ================================================================== *)
(** ** Numbers and their formats *)

Definition digit_char (d : N) : char := 48 + d.

Fixpoint uint_chars (d : Decimal.uint) : str :=
  match d with
  | Decimal.Nil => []
  | Decimal.D0 d => digit_char 0 :: uint_chars d
  | Decimal.D1 d => digit_char 1 :: uint_chars d
  | Decimal.D2 d => digit_char 2 :: uint_chars d
  | Decimal.D3 d => digit_char 3 :: uint_chars d
  | Decimal.D4 d => digit_char 4 :: uint_chars d
  | Decimal.D5 d => digit_char 5 :: uint_chars d
  | Decimal.D6 d => digit_char 6 :: uint_chars d
  | Decimal.D7 d => digit_char 7 :: uint_chars d
  | Decimal.D8 d => digit_char 8 :: uint_chars d
  | Decimal.D9 d => digit_char 9 :: uint_chars d
  end.

(** [str(n)] of an int. *)
Definition str_of_int (z : Z) : str :=
  match Z.to_int z with
  | Decimal.Pos d => uint_chars d
  | Decimal.Neg d => 45 :: uint_chars d
  end.

(** [float(n)] of an int: round to nearest, ties to even. *)
Definition float_of_int (z : Z) : float :=
  SF2Prim (binary_normalize prec emax z 0 false).

(** The integer nearest to [m * 2^e], ties to even ([0 <= m]). *)
Definition round_half_even (m e : Z) : Z :=
  match e with
  | Z0 => m
  | Zpos p => (m * 2 ^ Zpos p)%Z
  | Zneg p =>
      let d := (2 ^ Zpos p)%Z in
      let q := (m / d)%Z in
      let r := (m mod d)%Z in
      if (2 * r <? d)%Z then q
      else if (d <? 2 * r)%Z then (q + 1)%Z
      else if Z.even q then q else (q + 1)%Z
  end.

Definition sign_chars (s : bool) : str := if s then [45] else [].

(** Two decimals of a count of hundredths. *)
Definition hundredths_chars (n : Z) : str :=
  str_of_int (n / 100) ++ [46]
  ++ [digit_char (Z.to_N ((n mod 100) / 10)); digit_char (Z.to_N (n mod 10))].

(** [format(x, '.2f')] of a float: the decimal with two places nearest to
    the exact binary value, ties to even. *)
Definition format_2f (x : float) : str :=
  match Prim2SF x with
  | S754_nan => lit "nan"
  | S754_infinity s => sign_chars s ++ lit "inf"
  | S754_zero s => sign_chars s ++ lit "0.00"
  | S754_finite s m e =>
      sign_chars s ++ hundredths_chars (round_half_even (Zpos m * 100) e)
  end.

(** The values [current_y] takes: the int it starts as, a float once a
    line height has been added. *)
Inductive pynum : Type :=
| PyInt (z : Z)
| PyFloat (f : float).

(** [y + h] for a float [h]. *)
Definition py_add (y : pynum) (h : float) : pynum :=
  match y with
  | PyInt z => PyFloat (PrimFloat.add (float_of_int z) h)
  | PyFloat f => PyFloat (PrimFloat.add f h)
  end.

(** [f"{y}"]: [str(y)]; for a float that is its [repr]. *)
Definition py_format (float_repr : float -> str) (y : pynum) : str :=
  match y with
  | PyInt z => str_of_int z
  | PyFloat f => float_repr f
  end.

(** [f"{y:.2f}"] *)
Definition py_format_2f (y : pynum) : str :=
  match y with
  | PyInt z => format_2f (float_of_int z)
  | PyFloat f => format_2f f
  end.

(* ================================================================== *)
(** ** The validator: [contains_non_english_chars] *)

(** The list literal [non_english_chars], entry by entry as the source
    file spells it.  Two lines of the literal hold ASCII quote characters:
    the line commented "Chinese quotation marks" is the double quote
    U+0022 twice, and on the line commented "Chinese single quotes" six
    apostrophes delimit one triple-quoted literal, whose content is a
    comma and a space. *)
Definition non_english_chars : list str :=
  [ [0xFF08]; [0xFF09];   (* fullwidth parentheses *)
    [0x3010]; [0x3011];   (* lenticular brackets *)
    [0x300C]; [0x300D];   (* corner brackets *)
    [0x300E]; [0x300F];   (* white corner brackets *)
    [0x300A]; [0x300B];   (* double angle brackets *)
    [0xFF0C]; [0x3002];   (* fullwidth comma, ideographic full stop *)
    [0xFF1A]; [0xFF1B];   (* fullwidth colon and semicolon *)
    [0x22]; [0x22];       (* the ASCII double quote, twice *)
    [0x2C; 0x20];         (* a comma followed by a space *)
    [0x3001];             (* ideographic comma *)
    [0xFF05] ].           (* fullwidth percent sign *)

(** The symbols let through above code point 127:
    degree, plus-minus, times, division, registered, trade mark, copyright. *)
Definition allowed_unicode : list char :=
  [0xB0; 0xB1; 0xD7; 0xF7; 0xAE; 0x2122; 0xA9].

Definition contains_non_english_chars (text : str) : bool :=
  if existsb (fun ch => str_in ch text) non_english_chars then true
  else existsb (fun ch => (127 <? ch) && negb (char_in ch allowed_unicode)) text.

(** Written after the spec's words, for comparison with the code: the
    blacklist of section 4.1 (full-width parentheses, brackets, corner
    brackets, angle quotation marks, full-width comma, period, colon and
    semicolon, curly quotes, full-width percent). *)
Definition spec_blacklist : list char :=
  [ 0xFF08; 0xFF09; 0x3010; 0x3011; 0x300C; 0x300D; 0x300E; 0x300F;
    0x300A; 0x300B; 0xFF0C; 0x3002; 0xFF1A; 0xFF1B;
    0x201C; 0x201D; 0x2018; 0x2019; 0xFF05 ].

(** Written after the spec's words: a string is unsafe when it holds a
    blacklisted character or one above 127 outside the allow-list. *)
Definition spec_unsafe (s : str) : bool :=
  existsb (fun c => char_in c spec_blacklist
                    || ((127 <? c) && negb (char_in c allowed_unicode))) s.

(** Printable ASCII: space to tilde. *)
Definition printable_ascii (c : char) : bool := (32 <=? c) && (c <=? 126).

(** Written after the spec's words: "strictly printable-ASCII plus a small
    whitelist of symbols". *)
Definition printable_or_allowed (c : char) : bool :=
  printable_ascii c || char_in c allowed_unicode.

(* ================================================================== *)
(** ** The layout engine: [create_centered_tspan_elements] *)

(** The literal two-character sequence: a backslash and the letter n. *)
Definition backslash_n : str := [92; 110].
Definition newline : char := 10.

(** [<tspan x="0" y="OFFSET">CONTENT</tspan>] *)
Definition tspan_y (offset content : str) : str :=
  lit "<tspan x=" ++ dq ++ lit "0" ++ dq ++ lit " y=" ++ dq ++ offset ++ dq
  ++ lit ">" ++ content ++ lit "</tspan>".

(** [<tspan x="0" dy="OFFSET">CONTENT</tspan>] *)
Definition tspan_dy (offset content : str) : str :=
  lit "<tspan x=" ++ dq ++ lit "0" ++ dq ++ lit " dy=" ++ dq ++ offset ++ dq
  ++ lit ">" ++ content ++ lit "</tspan>".

Section Layout.

(** [repr] of a float, which [f"{current_y}"] would call were
    [current_y] a float at index 0. *)
Variable float_repr : float -> str.

(** The body of [for i, line in enumerate(lines)], with the list
    [tspan_elements] returned in order. *)
Fixpoint tspan_loop (line_height : float) (i : nat) (current_y : pynum)
         (lines : list str) : list str :=
  match lines with
  | [] => []
  | line :: rest =>
      let line_content := strip line in
      if negb (truthy line_content)
      then tspan_loop line_height (S i) (py_add current_y line_height) rest
      else
        let tspan :=
          if Nat.eqb i 0
          then tspan_y (py_format float_repr current_y) line_content
          else tspan_y (py_format_2f current_y) line_content in
        tspan :: tspan_loop line_height (S i) (py_add current_y line_height) rest
  end.

Definition tspan_elements (text : str) (line_height : float) : list str :=
  let lines := split newline (replace text backslash_n [newline]) in
  tspan_loop line_height 0 (PyInt 0) lines.

Definition create_centered_tspan_elements (text : str) (line_height : float)
  : str :=
  join (tspan_elements text line_height).

End Layout.

(** Written after the spec's words, for comparison with the loop: the
    cursor after [k] lines, and the fragment of the line at index [k]. *)
Fixpoint cursor (line_height : float) (k : nat) : pynum :=
  match k with
  | O => PyInt 0
  | S k' => py_add (cursor line_height k') line_height
  end.

Definition fragment_at (line_height : float) (k : nat) (line : str) : list str :=
  if truthy (strip line)
  then [tspan_y (if Nat.eqb k 0 then lit "0"
                 else py_format_2f (cursor line_height k)) (strip line)]
  else [].

Fixpoint fragments_from (line_height : float) (k : nat) (lines : list str)
  : list str :=
  match lines with
  | [] => []
  | line :: rest =>
      fragment_at line_height k line ++ fragments_from line_height (S k) rest
  end.

(** The logical lines of a text: both spellings of a line break
    normalised, then split. *)
Definition logical_lines (text : str) : list str :=
  split newline (replace text backslash_n [newline]).

(** A string of decimal digits, as an int is formatted. *)
Definition integer_formatted (s : str) : bool :=
  truthy s && forallb (fun c => (48 <=? c) && (c <=? 57)) s.

(** The offset written in a fragment: what stands between the opening
    of the y attribute and the next double quote. *)
Fixpoint until_quote (s : str) : str :=
  match s with
  | [] => []
  | c :: s' => if c =? 34 then [] else c :: until_quote s'
  end.

Definition fragment_offset (fragment : str) : str :=
  until_quote (skipn (List.length (lit "<tspan x=" ++ dq ++ lit "0" ++ dq
                                   ++ lit " y=" ++ dq)) fragment).

(* ================================================================== *)
(** ** The substitution engine: [replace_template_variables] *)

Definition origin_map : list (str * str) :=
  [ (lit "CN", lit "CHINA"); (lit "VN", lit "VIETNAM") ].

Section Substitution.

Variable float_repr : float -> str.
(** The runtime's upper-case mapping of the characters above 127. *)
Variable unicode_upper : char -> str.

(** [per_number.strip() if per_number else ''] *)
Definition per_number_clean (per_number : str) : str :=
  if truthy per_number then strip per_number else [].

(** The value substituted for the code_number placeholder. *)
Definition code_number_content (reg_number per_number : str) : str :=
  let formatted_reg_no := lit "REG.NO." ++ reg_number in
  if truthy (per_number_clean per_number)
  then
    let formatted_per_no := lit "PER.NO." ++ per_number_clean per_number in
    tspan_dy (lit "-8") formatted_reg_no ++ tspan_dy (lit "16") formatted_per_no
  else formatted_reg_no.

(** The value substituted for the origin_country placeholder. *)
Definition origin_country (origin : str) : str :=
  let origin_clean :=
    if truthy origin then upper unicode_upper (strip origin) else [] in
  dict_get origin_map origin_clean origin_clean.

Definition replace_template_variables
           (svg_content material_text reg_number per_number firm origin : str)
  : str :=
  let svg_content :=
    replace svg_content (lit "{{code_number}}")
            (code_number_content reg_number per_number) in
  let material_tspans :=
    create_centered_tspan_elements float_repr material_text 15.99%float in
  let svg_content :=
    replace svg_content (lit "{{material_text}}") material_tspans in
  let svg_content :=
    replace svg_content (lit "{{firm}}")
            (if truthy firm then strip firm else []) in
  let svg_content :=
    replace svg_content (lit "{{origin_country}}") (origin_country origin) in
  svg_content.

End Substitution.

(* ================================================================== *)
(** ** The file-name generator: [sanitize_filename] *)

(** The character class of the pattern: less-than, greater-than, colon,
    double quote, slash, backslash, bar, question mark, star, newline and
    carriage return. *)
Definition unsafe_filename_chars : list char :=
  [60; 62; 58; 34; 47; 92; 124; 63; 42; 10; 13].

(** [re.sub('[...]', '', text)] for a character class: every character of
    the class is dropped. *)
Definition re_sub_class (class : list char) (text : str) : str :=
  filter (fun c => negb (char_in c class)) text.

Definition sanitize_filename (text : str) : str :=
  let safe := re_sub_class unsafe_filename_chars text in
  let safe := replace safe (lit " ") (lit "_") in
  let safe := slice_to 50 safe in
  safe.

(* ================================================================== *)
(** ** The record pipeline: [generate_label2_from_dataframe] *)

Definition bytes := list byte.

(** A cell of the data frame: missing ([pd.notna] fails), or a value that
    is there, kept as the text [str] gives of it. *)
Inductive cell : Type :=
| NA
| Text (s : str).

(** [str(v) if pd.notna(v) else ''] *)
Definition str_if_notna (v : cell) : str :=
  match v with
  | NA => []
  | Text s => s
  end.

Definition notna (v : cell) : bool :=
  match v with
  | NA => false
  | Text _ => true
  end.

(** A data frame: the column labels and the rows, indexed 0, 1, ...
    [pd.read_excel] keeps the labels distinct; a frame built another way
    may repeat one.  A row shorter than the columns reads as missing past
    its end. *)
Record DataFrame : Type := {
  columns : list str;
  rows : list (list cell)
}.

(** [row[label]]: the cells of the columns that carry the label, in column
    order.  One cell is a scalar; several are a Series. *)
Fixpoint row_get (cols : list str) (row : list cell) (label : str)
  : list cell :=
  match cols with
  | [] => []
  | c :: cols' =>
      if str_eqb c label
      then hd NA row :: row_get cols' (tl row) label
      else row_get cols' (tl row) label
  end.

(** [str(v) if pd.notna(v) else ''] for [v = row[label]].  On a Series
    [pd.notna(v)] is a Series too, and taking its truth value raises
    ValueError: [None].  (No cell at all would be a KeyError; the labels
    looked up are labels of the frame.) *)
Definition str_if_notna_of (v : list cell) : option str :=
  match v with
  | [c] => Some (str_if_notna c)
  | _ => None
  end.

(** [str(v) if pd.notna(v) else f"label_{index}"] for [v = row[label]]. *)
Definition identifier_of (v : list cell) (index : Z) : option str :=
  match v with
  | [c] => Some (if notna c then str_if_notna c
                 else lit "label_" ++ str_of_int index)
  | _ => None
  end.

(** [label in row] *)
Definition in_row (cols : list str) (label : str) : bool :=
  existsb (fun c => str_eqb c label) cols.

(** [df.iterrows()]: the rows with their index. *)
Definition iterrows (df : DataFrame) : list (Z * list cell) :=
  combine (map Z.of_nat (seq 0 (List.length (rows df)))) (rows df).

(** The six strings the loop body reads off a row. *)
Record Fields : Type := {
  materials_text : str;
  reg_no : str;
  identifier : str;
  per_no : str;
  firm : str;
  origin : str
}.

(** An optional column: [''] unless the column exists, its label is
    truthy and it is a label of the row; then the cell is read as the
    required ones are. *)
Definition optional_field (cols : list str) (col : option str)
           (row : list cell) : option str :=
  match col with
  | Some label =>
      if truthy label && in_row cols label
      then str_if_notna_of (row_get cols row label)
      else Some []
  | None => Some []
  end.

(** The head of the loop body: the values read from [row], in the order
    of the source; [None] when one of the reads raises. *)
Definition read_fields (cols : list str)
           (col0 materials_col reg_no_col : str)
           (per_no_col firm_col origin_col : option str)
           (index : Z) (row : list cell) : option Fields :=
  match str_if_notna_of (row_get cols row materials_col) with
  | None => None
  | Some materials_text =>
  match str_if_notna_of (row_get cols row reg_no_col) with
  | None => None
  | Some reg_no =>
  match identifier_of (row_get cols row col0) index with
  | None => None
  | Some identifier =>
  match optional_field cols per_no_col row with
  | None => None
  | Some per_no =>
  match optional_field cols firm_col row with
  | None => None
  | Some firm =>
  match optional_field cols origin_col row with
  | None => None
  | Some origin =>
      Some {| materials_text := materials_text; reg_no := reg_no;
              identifier := identifier; per_no := per_no;
              firm := firm; origin := origin |}
  end end end end end end.

Definition MAX_MATERIAL_LINES : Z := 15.

(** [f"{identifier} label is not generated, reason: {reason}."] *)
Definition not_generated (identifier reason : str) : str :=
  identifier ++ lit " label is not generated, reason: " ++ reason ++ lit ".".

(** The lines the pipeline counts: the logical lines that are not blank. *)
Definition non_empty_lines (materials_text : str) : list str :=
  let material_lines :=
    split newline (replace materials_text backslash_n [newline]) in
  filter (fun line => truthy (strip line)) material_lines.

Section Pipeline.

Variable float_repr : float -> str.
Variable unicode_upper : char -> str.
(** Whether the import of cairosvg succeeded. *)
Variable HAS_CAIROSVG : bool.
(** [cairosvg.svg2pdf(bytestring=svg.encode('utf-8'))]; [None] when it
    raises. *)
Variable svg2pdf : str -> option bytes.

Definition convert_svg_bytes_to_pdf_bytes (svg_content : str) : option bytes :=
  if negb HAS_CAIROSVG then None
  else svg2pdf svg_content.

(** The loop body after the fields are read; the state is the pair of
    lists [pdf_files] and [warnings], and [continue] returns it. *)
Definition process_fields (template_content : str) (f : Fields)
           (st : list (str * bytes) * list str)
  : list (str * bytes) * list str :=
  let '(pdf_files, warnings) := st in
  if negb (truthy (materials_text f)) || negb (truthy (reg_no f))
  then (pdf_files, warnings)
  else if (MAX_MATERIAL_LINES
           <? Z.of_nat (List.length (non_empty_lines (materials_text f))))%Z
  then (pdf_files,
        warnings ++ [not_generated (identifier f)
                       (lit "material text larger than "
                        ++ str_of_int MAX_MATERIAL_LINES ++ lit " lines")])
  else if contains_non_english_chars (materials_text f)
  then (pdf_files,
        warnings ++ [not_generated (identifier f)
                       (lit "material text is not English input")])
  else if contains_non_english_chars (reg_no f)
  then (pdf_files,
        warnings ++ [not_generated (identifier f)
                       (lit "REG # is not English input")])
  else if truthy (per_no f) && contains_non_english_chars (per_no f)
  then (pdf_files,
        warnings ++ [not_generated (identifier f)
                       (lit "PER # is not English input")])
  else
    let svg_content :=
      replace_template_variables float_repr unicode_upper template_content
        (materials_text f) (reg_no f) (per_no f) (firm f) (origin f) in
    let safe_name := sanitize_filename (identifier f) in
    let pdf_filename := safe_name ++ lit "-label2.pdf" in
    if HAS_CAIROSVG
    then match convert_svg_bytes_to_pdf_bytes svg_content with
         | Some pdf_bytes =>
             if truthy pdf_bytes
             then (pdf_files ++ [(pdf_filename, pdf_bytes)], warnings)
             else (pdf_files, warnings)
         | None => (pdf_files, warnings)
         end
    else (pdf_files, warnings).

(** The whole function; [None] is an exception: the IndexError of
    [columns[1]] or [columns[2]] on a frame with fewer than three columns,
    or the ValueError of a read at the head of the loop body. *)
Definition generate_label2_from_dataframe (template_content : str)
           (df : DataFrame) : option (list (str * bytes) * list str) :=
  match columns df with
  | col0 :: materials_col :: reg_no_col :: _ =>
      let per_no_col := nth_error (columns df) 3 in
      let firm_col := nth_error (columns df) 4 in
      let origin_col := nth_error (columns df) 5 in
      fold_left
        (fun st ir =>
           match st with
           | None => None
           | Some lists =>
               match read_fields (columns df) col0 materials_col reg_no_col
                       per_no_col firm_col origin_col (fst ir) (snd ir) with
               | None => None
               | Some f => Some (process_fields template_content f lists)
               end
           end)
        (iterrows df) (Some ([], []))
  | _ => None
  end.

(** What one row adds to the two lists. *)
Definition row_outcome (template_content : str) (f : Fields)
  : list (str * bytes) * list str :=
  process_fields template_content f ([], []).

(** The fields of the rows of a frame that can be read, in order. *)
Definition fields_of (df : DataFrame) : list Fields :=
  match columns df with
  | col0 :: materials_col :: reg_no_col :: _ =>
      flat_map (fun ir =>
                  match read_fields (columns df) col0 materials_col reg_no_col
                          (nth_error (columns df) 3) (nth_error (columns df) 4)
                          (nth_error (columns df) 5) (fst ir) (snd ir) with
                  | Some f => [f]
                  | None => []
                  end)
               (iterrows df)
  | _ => []
  end.

End Pipeline.

(** A row has both required fields. *)
Definition has_required (f : Fields) : bool :=
  truthy (materials_text f) && truthy (reg_no f).

(** A row passes the four checks that end in a warning. *)
Definition passes_checks (f : Fields) : bool :=
  negb (MAX_MATERIAL_LINES
        <? Z.of_nat (List.length (non_empty_lines (materials_text f))))%Z
  && negb (contains_non_english_chars (materials_text f))
  && negb (contains_non_english_chars (reg_no f))
  && negb (truthy (per_no f) && contains_non_english_chars (per_no f)).

(** Written after the spec's words: an optional field by position, the
    text of cell [k] when the frame has a column [k] with a truthy label. *)
Definition optional_at (cols : list str) (row : list cell) (k : nat) : str :=
  match nth_error cols k with
  | Some label => if truthy label then str_if_notna (nth k row NA) else []
  | None => []
  end.

(** Written after the spec's words: the six logical fields of a row,
    located by fixed column position. *)
Definition fields_by_position (cols : list str) (index : Z) (row : list cell)
  : Fields :=
  {| materials_text := str_if_notna (nth 1 row NA);
     reg_no := str_if_notna (nth 2 row NA);
     identifier := match nth 0 row NA with
                   | Text s => s
                   | NA => lit "label_" ++ str_of_int index
                   end;
     per_no := optional_at cols row 3;
     firm := optional_at cols row 4;
     origin := optional_at cols row 5 |}.

(** How many columns carry a label. *)
Definition label_count (cols : list str) (label : str) : nat :=
  List.length (filter (fun c => str_eqb c label) cols).

(** The labels the loop body looks up: those of columns 1, 2 and 0, and
    of columns 3, 4 and 5 where they exist and are truthy. *)
Definition looked_up (cols : list str) : list str :=
  match cols with
  | col0 :: materials_col :: reg_no_col :: others =>
      materials_col :: reg_no_col :: col0
      :: filter (fun label => truthy label) (firstn 3 others)
  | _ => []
  end.

(** Every label looked up is carried by one column only. *)
Definition reads (cols : list str) : bool :=
  forallb (fun label => Nat.eqb (label_count cols label) 1) (looked_up cols).

(** The frames on which the function returns. *)
Definition readable (df : DataFrame) : bool :=
  (3 <=? List.length (columns df))%nat
  && (negb (truthy (rows df)) || reads (columns df)).

Section Accounting.

Variable float_repr : float -> str.
Variable unicode_upper : char -> str.
Variable HAS_CAIROSVG : bool.
Variable svg2pdf : str -> option bytes.

(** The filled template of a row. *)
Definition svg_of (template_content : str) (f : Fields) : str :=
  replace_template_variables float_repr unicode_upper template_content
    (materials_text f) (reg_no f) (per_no f) (firm f) (origin f).

(** The file name of a row. *)
Definition pdf_filename_of (f : Fields) : str :=
  sanitize_filename (identifier f) ++ lit "-label2.pdf".

(** What the conversion stage appends for a filled template: the
    document when the converter is there and gives a non-empty result,
    nothing otherwise. *)
Definition converted (pdf_filename svg_content : str) : list (str * bytes) :=
  if HAS_CAIROSVG
  then match convert_svg_bytes_to_pdf_bytes HAS_CAIROSVG svg2pdf svg_content with
       | Some pdf_bytes =>
           if truthy pdf_bytes then [(pdf_filename, pdf_bytes)] else []
       | None => []
       end
  else [].

(** What a list of rows adds to the two lists of a run, in order. *)
Definition documents_of (template_content : str) (fs : list Fields)
  : list (str * bytes) :=
  flat_map (fun f => fst (row_outcome float_repr unicode_upper HAS_CAIROSVG
                            svg2pdf template_content f)) fs.

Definition warnings_of (template_content : str) (fs : list Fields) : list str :=
  flat_map (fun f => snd (row_outcome float_repr unicode_upper HAS_CAIROSVG
                            svg2pdf template_content f)) fs.

(** A row that passed every check and still left no document. *)
Definition conversion_dropped (template_content : str) (f : Fields) : bool :=
  has_required f && passes_checks f
  && negb (truthy (converted (pdf_filename_of f) (svg_of template_content f))).

End Accounting.

(** The reason of the first check a row fails, in the order of the loop
    body; [None] when it passes all four. *)
Definition rejection (f : Fields) : option str :=
  if (MAX_MATERIAL_LINES
      <? Z.of_nat (List.length (non_empty_lines (materials_text f))))%Z
  then Some (lit "material text larger than 15 lines")
  else if contains_non_english_chars (materials_text f)
  then Some (lit "material text is not English input")
  else if contains_non_english_chars (reg_no f)
  then Some (lit "REG # is not English input")
  else if truthy (per_no f) && contains_non_english_chars (per_no f)
  then Some (lit "PER # is not English input")
  else None.


(** A frame of one complete row, and a converter that always fails. *)
Definition one_row_frame : DataFrame :=
  {| columns := [lit "code"; lit "material"; lit "reg"];
     rows := [[Text (lit "P-1"); Text (lit "COTTON"); Text (lit "12345")]] |}.

Definition failing_svg2pdf (svg : str) : option bytes := None.

(** A converter that returns one byte for every input. *)
Definition constant_svg2pdf (svg : str) : option bytes := Some [x25].

(** Sample rows: a complete one, one of sixteen lines, one whose permit
    number is a single space and one whose permit number is a single
    no-break space. *)
Definition sample_fields : Fields :=
  {| materials_text := lit "COTTON"; reg_no := lit "12345";
     identifier := lit "P 1/a"; per_no := [];
     firm := lit "ACME"; origin := lit "cn" |}.

Definition sixteen_lines : str := List.concat (repeat [65; newline] 16).

Definition space_permit_fields : Fields :=
  {| materials_text := lit "COTTON"; reg_no := lit "12345";
     identifier := lit "P-2"; per_no := [0x20];
     firm := []; origin := [] |}.

Definition nbsp_permit_fields : Fields :=
  {| materials_text := lit "COTTON"; reg_no := lit "12345";
     identifier := lit "P-3"; per_no := [0xA0];
     firm := []; origin := [] |}.

(** A frame of two rows: one with a comma and a space in its composition
    text, one with nothing in it. *)
Definition flagged_frame : DataFrame :=
  {| columns := [lit "code"; lit "material"; lit "reg"];
     rows := [ [Text (lit "P-9"); Text (lit "COTTON, POLYESTER");
                Text (lit "12345")];
               [NA; NA; NA] ] |}.

(** A row whose registration and permit numbers both hold a full-width
    parenthesis. *)
Definition flagged_numbers_fields : Fields :=
  {| materials_text := lit "COTTON"; reg_no := [0x31; 0xFF08];
     identifier := lit "P-4"; per_no := [0x32; 0xFF09];
     firm := []; origin := [] |}.

(** A template of one line, and a frame of five rows over four columns:
    a complete row with a one-space permit number, a row of sixteen lines
    without identifier, a row without registration number, a row whose
    permit number is a no-break space, and a complete row. *)
Definition label_template : str := lit "<text>{{code_number}}</text>".

Definition mixed_frame : DataFrame :=
  {| columns := [lit "code"; lit "material"; lit "reg"; lit "permit"];
     rows := [ [Text (lit "P 1/a"); Text (lit "COTTON"); Text (lit "12345");
                Text [0x20]];
               [NA; Text sixteen_lines; Text (lit "777"); NA];
               [Text (lit "P-3"); Text (lit "LINEN"); NA; NA];
               [Text (lit "P-4"); Text (lit "WOOL"); Text (lit "9");
                Text [0xA0]];
               [Text (lit "P-5"); Text (lit "SILK"); Text (lit "5"); NA] ] |}.

(** A frame whose first two columns carry the same label. *)
Definition repeated_label_frame : DataFrame :=
  {| columns := [lit "code"; lit "code"; lit "reg"];
     rows := [[Text (lit "P-1"); Text (lit "COTTON"); Text (lit "12345")]] |}.

(** A converter that returns the text it is given, one byte for each
    character, and one that fails on the labels of registration number 5. *)
Definition byte_of_char (c : char) : byte :=
  match Byte.of_N (c mod 256) with
  | Some b => b
  | None => x00
  end.

Definition echo_svg2pdf (svg : str) : option bytes :=
  Some (map byte_of_char svg).

Definition picky_svg2pdf (svg : str) : option bytes :=
  if str_in (lit "REG.NO.5<") svg then None else echo_svg2pdf svg.

(** Stand-ins for the two runtime tables where a closed term needs them. *)
Definition no_repr (x : float) : str := [].
Definition no_upper (c : char) : str := [c].

(** Replacing a space by an underscore, character by character. *)
Definition underscore_space (c : char) : char := if c =? 32 then 95 else c.

(** The four reasons a warning can give. *)
Definition rejection_reasons : list str :=
  [ lit "material text larger than 15 lines";
    lit "material text is not English input";
    lit "REG # is not English input";
    lit "PER # is not English input" ].

(** The opening brace, with which every placeholder starts. *)
Definition brace : char := 123.

(** The four placeholders. *)
Definition placeholders : list str :=
  [ lit "{{code_number}}"; lit "{{material_text}}"; lit "{{firm}}";
    lit "{{origin_country}}" ].

(** [old] fails to match at the head of [s] by a differing character
    inside [s], so whatever follows [s] cannot turn it into a match. *)
Fixpoint decided_mismatch (s old : str) : bool :=
  match old, s with
  | a :: old', c :: s' => if a =? c then decided_mismatch s' old' else true
  | _, _ => false
  end.

(** [old] matches at no position of [s], each time by a character of [s]. *)
Fixpoint never_matches (old s : str) : bool :=
  match s with
  | [] => true
  | _ :: s' => decided_mismatch s old && never_matches old s'
  end.

(** A string the file-name generator has nothing to change in. *)
Definition clean_name (s : str) : Prop :=
  Forall (fun c => ~ In c unsafe_filename_chars /\ c <> 32) s.

(* ================================================================== *)
(** * Properties *)

(** ** Strings *)

Lemma str_eqb_eq (a b : str) : str_eqb a b = true <-> a = b.
Proof.
  revert b; induction a as [|x a IH]; intros [|y b]; simpl; split;
    try congruence; try discriminate.
  - rewrite andb_true_iff, N.eqb_eq, IH. intros [-> ->]; reflexivity.
  - intros E; injection E as -> ->. rewrite N.eqb_refl.
    apply IH; reflexivity.
Qed.

Lemma str_eqb_neq (a b : str) : str_eqb a b = false <-> a <> b.
Proof.
  rewrite <- str_eqb_eq. destruct (str_eqb a b); split; congruence.
Qed.

Lemma truthy_false {A : Type} (s : list A) : truthy s = false <-> s = [].
Proof. destruct s; simpl; split; congruence. Qed.

Lemma truthy_true {A : Type} (s : list A) : truthy s = true <-> s <> [].
Proof. destruct s; simpl; split; congruence. Qed.

Lemma char_in_In (c : char) (l : list char) : char_in c l = true <-> In c l.
Proof.
  unfold char_in. rewrite existsb_exists. split.
  - intros (x & Hx & E). apply N.eqb_eq in E. subst; assumption.
  - intros H. exists c. split; [assumption | apply N.eqb_refl].
Qed.

Lemma strip_nil : strip [] = [].
Proof. reflexivity. Qed.

(** A [replace] of one character by one character is a [map]. *)
Lemma replace_scan_single (a b : char) (s : str) :
  replace_scan [a] [b] O s = map (fun c => if c =? a then b else c) s.
Proof.
  induction s as [|c s IH]; simpl; [reflexivity|].
  rewrite N.eqb_sym, andb_true_r.
  destruct (c =? a); simpl; rewrite IH; reflexivity.
Qed.

(* ================================================================== *)
(** ** The validator *)

Lemma str_in_single (c : char) (s : str) : str_in [c] s = char_in c s.
Proof.
  unfold char_in. induction s as [|x s IH]; simpl; [reflexivity|].
  rewrite andb_true_r, IH. reflexivity.
Qed.

Lemma existsb_pointwise {A : Type} (f g : A -> bool) (l : list A) :
  (forall x, f x = g x) -> existsb f l = existsb g l.
Proof.
  intros E. induction l as [|x l IH]; simpl; [reflexivity|].
  rewrite E, IH. reflexivity.
Qed.

(** Every character of the spec's blacklist is above 127 and outside the
    allow-list: the blacklist adds nothing to the second test. *)
Lemma spec_blacklist_above_ascii (c : char) :
  char_in c spec_blacklist = true ->
  (127 <? c) && negb (char_in c allowed_unicode) = true.
Proof.
  rewrite char_in_In. unfold spec_blacklist. simpl.
  intros H.
  repeat (destruct H as [<- | H]; [reflexivity|]).
  contradiction.
Qed.

Lemma spec_unsafe_above_ascii (s : str) :
  spec_unsafe s
  = existsb (fun c => (127 <? c) && negb (char_in c allowed_unicode)) s.
Proof.
  unfold spec_unsafe. apply existsb_pointwise. intros c.
  destruct (char_in c spec_blacklist) eqn:E; simpl; [|reflexivity].
  symmetry. apply spec_blacklist_above_ascii. exact E.
Qed.

Lemma contains_non_english_chars_orb (text : str) :
  contains_non_english_chars text
  = existsb (fun ch => str_in ch text) non_english_chars
    || existsb (fun c => (127 <? c) && negb (char_in c allowed_unicode)) text.
Proof.
  unfold contains_non_english_chars.
  destruct (existsb _ non_english_chars); reflexivity.
Qed.

(** What the code flags, exactly: the spec's unsafe strings, and besides
    them every string with an ASCII double quote or with a comma followed
    by a space. *)
Lemma contains_non_english_chars_spec (text : str) :
  contains_non_english_chars text
  = spec_unsafe text || char_in 0x22 text || str_in [0x2C; 0x20] text.
Proof.
  rewrite contains_non_english_chars_orb, spec_unsafe_above_ascii.
  set (high := existsb (fun c => (127 <? c) && negb (char_in c allowed_unicode)) text).
  unfold non_english_chars.
  cbn [existsb]. rewrite !str_in_single.
  set (q := char_in 34 text). set (cs := str_in [44; 32] text).
  assert (Hhigh : forall c, (127 <? c) && negb (char_in c allowed_unicode) = true ->
                            char_in c text = true -> high = true).
  { intros c Hc Hin. unfold high. apply existsb_exists.
    apply char_in_In in Hin. exists c. split; assumption. }
  destruct high.
  - rewrite orb_true_r. reflexivity.
  - rewrite orb_false_r. simpl.
    repeat match goal with
           | |- context [char_in ?c text] =>
               lazymatch c with
               | 34 => fail
               | _ =>
                   let E := fresh "E" in
                   destruct (char_in c text) eqn:E;
                   [ specialize (Hhigh c eq_refl E); discriminate | ]
               end
           end.
    simpl. destruct q, cs; reflexivity.
Qed.

(** The empty string is safe. *)
Lemma contains_non_english_chars_nil : contains_non_english_chars [] = false.
Proof. reflexivity. Qed.

(** Whatever the spec calls unsafe, the code flags. *)
Lemma spec_unsafe_is_flagged (s : str) :
  spec_unsafe s = true -> contains_non_english_chars s = true.
Proof.
  intros H. rewrite contains_non_english_chars_spec, H. reflexivity.
Qed.

(** C2 (the code departs from the claim): the material text
    [COTTON, POLYESTER] is plain ASCII and holds no character of the
    blacklist the claim names, so the claim classifies it as safe; the code
    flags it, because the entry of [non_english_chars] written with six
    apostrophes is the two-character string comma-space.  The same holds
    of the ASCII double quote, as in the text 5, double quote, FOAM. *)
Theorem C2_flags_ascii_comma_space :
  contains_non_english_chars (lit "COTTON, POLYESTER") = true
  /\ spec_unsafe (lit "COTTON, POLYESTER") = false
  /\ contains_non_english_chars (lit "5" ++ dq ++ lit " FOAM") = true
  /\ spec_unsafe (lit "5" ++ dq ++ lit " FOAM") = false
  /\ contains_non_english_chars [] = false.
Proof. repeat split; vm_compute; reflexivity. Qed.

(** A text of two lines holds a newline, which is not printable, and the
    validator accepts it, as its comment says it should. *)
Lemma newline_is_accepted :
  contains_non_english_chars [65; 10; 66] = false
  /\ forallb printable_or_allowed [65; 10; 66] = false.
Proof. split; vm_compute; reflexivity. Qed.

(** Every character of a string the validator accepts is an ASCII
    character (code point at most 127) or one of the seven allowed
    symbols. *)
Lemma accepted_is_ascii_or_allowed (s : str) :
  contains_non_english_chars s = false ->
  Forall (fun c => c <= 127 \/ In c allowed_unicode) s.
Proof.
  rewrite contains_non_english_chars_orb, orb_false_iff.
  intros [_ H]. apply Forall_forall. intros c Hc.
  destruct (127 <? c) eqn:E.
  - right. apply char_in_In.
    destruct (char_in c allowed_unicode) eqn:A; [reflexivity|].
    exfalso. rewrite <- not_true_iff_false in H. apply H.
    apply existsb_exists. exists c. split; [assumption|].
    rewrite E, A. reflexivity.
  - left. apply N.ltb_ge in E. exact E.
Qed.

(** C9 (the code departs from the claim): the second loop tests only
    [ord(char) > 127], so the validator accepts texts that hold ASCII
    control characters, which are neither printable nor among the seven
    symbols, nor the newline its comment allows: escape, NUL, delete and
    tab are accepted, alone or inside a text. *)
Theorem C9_accepts_control_characters :
  contains_non_english_chars (lit "COTTON" ++ [0x1B]) = false
  /\ forallb printable_or_allowed (lit "COTTON" ++ [0x1B]) = false
  /\ printable_or_allowed 0x1B = false
  /\ contains_non_english_chars [0x00] = false
  /\ contains_non_english_chars [0x7F] = false
  /\ contains_non_english_chars [0x09] = false
  /\ printable_or_allowed 0x00 = false
  /\ printable_or_allowed 0x7F = false
  /\ printable_or_allowed 0x09 = false.
Proof. repeat split; vm_compute; reflexivity. Qed.

(* ================================================================== *)
(** ** The layout engine *)

(** No piece of a split holds the separator. *)
Lemma split_no_separator (sep : char) (s : str) :
  Forall (fun piece => ~ In sep piece) (split sep s).
Proof.
  induction s as [|c s IH]; simpl.
  - constructor; [intros []|constructor].
  - destruct (c =? sep) eqn:E.
    + constructor; [intros []|exact IH].
    + apply N.eqb_neq in E.
      destruct (split sep s) as [|piece pieces].
      * constructor; [|constructor]. intros [H|[]]. congruence.
      * inversion IH as [|? ? Hpiece Hpieces]; subst.
        constructor; [|exact Hpieces].
        intros [H|H]; [congruence|contradiction].
Qed.

(** The first character the scan writes is the replacement or the first
    character it reads. *)
Lemma replace_scan_head (s : str) (h : char) (out : str) :
  replace_scan backslash_n [newline] O s = h :: out ->
  h = newline \/ exists s', s = h :: s'.
Proof.
  destruct s as [|c s]; cbn [replace_scan]; [discriminate|].
  destruct (startswith (c :: s) backslash_n); intros E; injection E as <- _.
  - left. reflexivity.
  - right. exists s. reflexivity.
Qed.

(** Once the backslash-n sequences are replaced, none is left. *)
Lemma replace_scan_no_backslash_n (s : str) :
  str_in backslash_n (replace_scan backslash_n [newline] 0 s) = false
  /\ str_in backslash_n (replace_scan backslash_n [newline] 1 s) = false.
Proof.
  induction s as [|c s [IH0 IH1]]; [split; reflexivity|].
  split; [|exact IH0].
  cbn [replace_scan].
  destruct (startswith (c :: s) backslash_n) eqn:E.
  - cbn [List.length backslash_n Nat.pred app str_in].
    rewrite IH1. reflexivity.
  - cbn [str_in]. rewrite IH0, orb_false_r.
    unfold backslash_n in *. cbn [startswith] in *.
    destruct (92 =? c); [|reflexivity]. cbn [andb] in *.
    destruct (replace_scan [92; 110] [newline] 0 s) as [|h out] eqn:R;
      [reflexivity|].
    rewrite andb_true_r.
    destruct (replace_scan_head s h out R) as [->|[s' ->]]; [reflexivity|].
    rewrite andb_true_r in E. exact E.
Qed.

Lemma no_backslash_n_left (text : str) :
  str_in backslash_n (replace text backslash_n [newline]) = false.
Proof. apply replace_scan_no_backslash_n. Qed.

Section LayoutFacts.

Variable float_repr : float -> str.

(** The loop is the line-by-line description: with the cursor of line
    [i] in [current_y], it emits the fragments of the lines from [i] on. *)
Lemma tspan_loop_fragments (line_height : float) (lines : list str) :
  forall i,
    tspan_loop float_repr line_height i (cursor line_height i) lines
    = fragments_from line_height i lines.
Proof.
  induction lines as [|line rest IH]; intros i; simpl; [reflexivity|].
  unfold fragment_at.
  change (py_add (cursor line_height i) line_height)
    with (cursor line_height (S i)).
  destruct (truthy (strip line)); simpl.
  - rewrite IH. destruct i; reflexivity.
  - apply IH.
Qed.

Lemma tspan_elements_fragments (text : str) (line_height : float) :
  tspan_elements float_repr text line_height
  = fragments_from line_height 0 (logical_lines text).
Proof.
  unfold tspan_elements, logical_lines.
  apply (tspan_loop_fragments line_height _ 0%nat).
Qed.

Lemma fragments_from_length (line_height : float) (lines : list str) :
  forall k,
    List.length (fragments_from line_height k lines)
    = List.length (filter (fun line => truthy (strip line)) lines).
Proof.
  induction lines as [|line rest IH]; intros k; simpl; [reflexivity|].
  rewrite length_app, IH. unfold fragment_at.
  destruct (truthy (strip line)); reflexivity.
Qed.

(** The pipeline counts the lines the layout engine emits. *)
Lemma non_empty_lines_are_fragments (text : str) (line_height : float) :
  List.length (non_empty_lines text)
  = List.length (tspan_elements float_repr text line_height).
Proof.
  rewrite tspan_elements_fragments, fragments_from_length. reflexivity.
Qed.

(** C3 as stated fails: when the first line is blank, the first fragment
    emitted belongs to a later line and its offset is written with two
    decimals. *)
Lemma C3_leading_blank_line :
  tspan_elements no_repr [newline; 65] 15.99%float
  = [tspan_y (lit "15.99") (lit "A")]
  /\ fragment_offset (hd [] (tspan_elements no_repr [newline; 65] 15.99%float))
     = lit "15.99"
  /\ integer_formatted
       (fragment_offset (hd [] (tspan_elements no_repr [newline; 65] 15.99%float)))
     = false.
Proof. repeat split; vm_compute; reflexivity. Qed.

(** C3, amended: the text is cut into logical lines at every newline and
    every backslash-n; each line is trimmed; the cursor starts at 0 and
    advances by the line height at every line, blank or not; a fragment
    is emitted for the non-blank lines only; the fragment of the line at
    index 0 carries the integer offset 0 and the fragment of any later
    line carries its cursor with two decimals.  The text A, line break,
    B at line height 15.99 gives offsets 0 and 15.99, in either spelling
    of the line break. *)
Theorem C3_layout (text : str) (line_height : float) :
  tspan_elements float_repr text line_height
  = fragments_from line_height 0 (logical_lines text)
  /\ create_centered_tspan_elements float_repr text line_height
     = join (fragments_from line_height 0 (logical_lines text))
  /\ str_in backslash_n (replace text backslash_n [newline]) = false
  /\ Forall (fun line => ~ In newline line) (logical_lines text)
  /\ (forall k line,
        fragment_at line_height k line
        = if truthy (strip line)
          then [tspan_y (if Nat.eqb k 0 then str_of_int 0
                         else py_format_2f (cursor line_height k))
                        (strip line)]
          else [])
  /\ create_centered_tspan_elements float_repr [65; newline; 66] 15.99%float
     = tspan_y (lit "0") (lit "A") ++ tspan_y (lit "15.99") (lit "B")
  /\ create_centered_tspan_elements float_repr ([65] ++ backslash_n ++ [66])
       15.99%float
     = tspan_y (lit "0") (lit "A") ++ tspan_y (lit "15.99") (lit "B")
  /\ create_centered_tspan_elements float_repr [65; newline; newline; 66]
       15.99%float
     = tspan_y (lit "0") (lit "A") ++ tspan_y (lit "31.98") (lit "B").
Proof.
  split; [apply tspan_elements_fragments|].
  split; [unfold create_centered_tspan_elements;
          rewrite tspan_elements_fragments; reflexivity|].
  split; [apply no_backslash_n_left|].
  split; [apply split_no_separator|].
  split; [intros k line; reflexivity|].
  repeat split; vm_compute; reflexivity.
Qed.

End LayoutFacts.

(* ================================================================== *)
(** ** Occurrences and replacement *)

Lemma startswith_app (p rest : str) : startswith (p ++ rest) p = true.
Proof.
  induction p as [|a p IH]; simpl; [reflexivity|].
  rewrite N.eqb_refl, IH. reflexivity.
Qed.

Lemma startswith_split (s p : str) :
  startswith s p = true <-> exists rest, s = p ++ rest.
Proof.
  split.
  - revert s. induction p as [|a p IH]; intros s H.
    + exists s. reflexivity.
    + destruct s as [|c s]; simpl in H; [discriminate|].
      apply andb_true_iff in H. destruct H as [E H].
      apply N.eqb_eq in E. subst c.
      destruct (IH s H) as [rest ->]. exists rest. reflexivity.
  - intros [rest ->]. apply startswith_app.
Qed.

Lemma str_in_unfold (p s : str) :
  str_in p s
  = startswith s p || match s with [] => false | _ :: s' => str_in p s' end.
Proof. destruct s; reflexivity. Qed.

(** [str_in] is occurrence as a substring. *)
Lemma str_in_split (p s : str) :
  str_in p s = true <-> exists a b, s = a ++ p ++ b.
Proof.
  split.
  - induction s as [|c s IH]; simpl; rewrite orb_true_iff.
    + intros [H|H]; [|discriminate].
      apply startswith_split in H. destruct H as [rest H].
      exists [], rest. exact H.
    + intros [H|H].
      * apply startswith_split in H. destruct H as [rest H].
        exists [], rest. exact H.
      * destruct (IH H) as (a & b & ->). exists (c :: a), b. reflexivity.
  - intros (a & b & ->). induction a as [|c a IH].
    + rewrite str_in_unfold. cbn [app]. rewrite startswith_app. reflexivity.
    + simpl. rewrite IH. apply orb_true_r.
Qed.

Lemma str_in_no_first (b : char) (old s : str) :
  ~ In b s -> str_in (b :: old) s = false.
Proof.
  induction s as [|c s IH]; intros H; [reflexivity|].
  cbn [str_in startswith].
  assert (E : (b =? c) = false).
  { apply N.eqb_neq. intros ->. apply H. left. reflexivity. }
  rewrite E. cbn [andb orb]. apply IH. intros Hin. apply H. right. exact Hin.
Qed.

Lemma str_in_app_no_first (b : char) (old pre s : str) :
  ~ In b pre -> str_in (b :: old) (pre ++ s) = str_in (b :: old) s.
Proof.
  induction pre as [|c pre IH]; intros H; [reflexivity|].
  cbn [app str_in startswith].
  assert (E : (b =? c) = false).
  { apply N.eqb_neq. intros ->. apply H. left. reflexivity. }
  rewrite E. cbn [andb orb]. apply IH. intros Hin. apply H. right. exact Hin.
Qed.

Lemma decided_mismatch_app (old s rest : str) :
  decided_mismatch s old = true -> startswith (s ++ rest) old = false.
Proof.
  revert s. induction old as [|a old IH]; intros s H.
  - destruct s; discriminate.
  - destruct s as [|c s]; [discriminate|].
    cbn [decided_mismatch] in H. cbn [app startswith].
    destruct (a =? c); [|reflexivity].
    cbn [andb]. apply IH. exact H.
Qed.

Lemma never_matches_app (old mid rest : str) :
  never_matches old mid = true ->
  str_in old (mid ++ rest) = str_in old rest.
Proof.
  induction mid as [|c mid IH]; intros H; [reflexivity|].
  cbn [never_matches] in H. apply andb_true_iff in H. destruct H as [H1 H2].
  change ((c :: mid) ++ rest) with (c :: (mid ++ rest)).
  cbn [str_in].
  change (c :: (mid ++ rest)) with ((c :: mid) ++ rest).
  rewrite (decided_mismatch_app old (c :: mid) rest H1).
  cbn [orb]. apply IH. exact H2.
Qed.

(** Where [old] does not occur, [replace] changes nothing. *)
Lemma replace_scan_absent (old new s : str) :
  str_in old s = false -> replace_scan old new 0 s = s.
Proof.
  induction s as [|c s IH]; intros H; [reflexivity|].
  cbn [str_in] in H. apply orb_false_iff in H. destruct H as [H1 H2].
  cbn [replace_scan]. rewrite H1, IH; [reflexivity|exact H2].
Qed.

Lemma replace_absent (s old new : str) :
  str_in old s = false -> replace s old new = s.
Proof.
  destruct old as [|b old]; intros H.
  - destruct s; discriminate.
  - apply replace_scan_absent. exact H.
Qed.

Lemma replace_scan_skip (old new skipped rest : str) :
  replace_scan old new (List.length skipped) (skipped ++ rest)
  = replace_scan old new 0 rest.
Proof.
  induction skipped as [|c skipped IH]; [reflexivity|].
  cbn [List.length app]. destruct rest as [|r rest'] eqn:E.
  - rewrite app_nil_r in *. cbn [replace_scan]. exact IH.
  - cbn [replace_scan]. exact IH.
Qed.

Lemma replace_scan_match (b : char) (old new rest : str) :
  replace_scan (b :: old) new 0 ((b :: old) ++ rest)
  = new ++ replace_scan (b :: old) new 0 rest.
Proof.
  change ((b :: old) ++ rest) with (b :: (old ++ rest)).
  cbn [replace_scan].
  change (b :: (old ++ rest)) with ((b :: old) ++ rest).
  rewrite startswith_app. cbn [List.length Nat.pred].
  rewrite replace_scan_skip. reflexivity.
Qed.

Lemma replace_scan_prefix (b : char) (old new pre s : str) :
  ~ In b pre ->
  replace_scan (b :: old) new 0 (pre ++ s)
  = pre ++ replace_scan (b :: old) new 0 s.
Proof.
  induction pre as [|c pre IH]; intros H; [reflexivity|].
  cbn [app replace_scan startswith].
  assert (E : (b =? c) = false).
  { apply N.eqb_neq. intros ->. apply H. left. reflexivity. }
  rewrite E. cbn [andb]. rewrite IH; [reflexivity|].
  intros Hin. apply H. right. exact Hin.
Qed.

(** One occurrence of a placeholder between two texts without a brace. *)
Lemma replace_in_context (old new pre post : str) (old' : str) :
  old = brace :: old' ->
  ~ In brace pre -> ~ In brace post ->
  replace (pre ++ old ++ post) old new = pre ++ new ++ post.
Proof.
  intros -> Hpre Hpost. unfold replace.
  rewrite replace_scan_prefix by exact Hpre.
  rewrite replace_scan_match.
  rewrite replace_scan_absent; [reflexivity|].
  apply str_in_no_first. exact Hpost.
Qed.

Lemma replace_no_brace (s old new : str) (old' : str) :
  old = brace :: old' -> ~ In brace s -> replace s old new = s.
Proof.
  intros -> H. apply replace_absent. apply str_in_no_first. exact H.
Qed.

Lemma lstrip_incl (s : str) (c : char) : In c (lstrip s) -> In c s.
Proof.
  induction s as [|x s IH]; simpl; [intros []|].
  destruct (isspace x); intros H; [right; apply IH; exact H|exact H].
Qed.

Lemma strip_incl (s : str) (c : char) : In c (strip s) -> In c s.
Proof.
  unfold strip, rstrip. intros H.
  apply in_rev in H. apply lstrip_incl in H. apply in_rev in H.
  apply lstrip_incl in H. exact H.
Qed.

Lemma not_char_in (c : char) (l : list char) : char_in c l = false -> ~ In c l.
Proof.
  intros H Hin. apply char_in_In in Hin. congruence.
Qed.

Lemma placeholder_absent (old old' pre mid post : str) :
  old = brace :: old' ->
  ~ In brace pre -> never_matches old mid = true -> ~ In brace post ->
  str_in old (pre ++ mid ++ post) = false.
Proof.
  intros -> Hpre Hmid Hpost.
  rewrite str_in_app_no_first by exact Hpre.
  rewrite never_matches_app by exact Hmid.
  apply str_in_no_first. exact Hpost.
Qed.

Lemma firm_value_strip (firm : str) :
  (if truthy firm then strip firm else []) = strip firm.
Proof. destruct firm; reflexivity. Qed.

(* ================================================================== *)
(** ** The substitution engine *)

Lemma per_number_clean_strip (per_number : str) :
  per_number_clean per_number = strip per_number.
Proof. destruct per_number; reflexivity. Qed.

Lemma code_number_content_cases (reg_number per_number : str) :
  code_number_content reg_number per_number
  = if truthy (strip per_number)
    then tspan_dy (lit "-8") (lit "REG.NO." ++ reg_number)
         ++ tspan_dy (lit "16") (lit "PER.NO." ++ strip per_number)
    else lit "REG.NO." ++ reg_number.
Proof.
  unfold code_number_content. rewrite per_number_clean_strip.
  destruct (truthy (strip per_number)); reflexivity.
Qed.

Lemma code_number_blank_permit (reg_number per_number : str) :
  strip per_number = [] ->
  code_number_content reg_number per_number = lit "REG.NO." ++ reg_number.
Proof.
  intros H. rewrite code_number_content_cases, H. reflexivity.
Qed.









Lemma origin_clean_strip (unicode_upper : char -> str) (origin : str) :
  (if truthy origin then upper unicode_upper (strip origin) else [])
  = upper unicode_upper (strip origin).
Proof. destruct origin; reflexivity. Qed.



(* ================================================================== *)
(** ** The file-name generator *)

Lemma sanitize_filename_map (text : str) :
  sanitize_filename text
  = firstn 50 (map underscore_space
                   (filter (fun c => negb (char_in c unsafe_filename_chars)) text)).
Proof.
  unfold sanitize_filename, slice_to, re_sub_class.
  change (lit " ") with [32]. change (lit "_") with [95].
  unfold replace. rewrite replace_scan_single. reflexivity.
Qed.

Lemma sanitize_filename_length (text : str) :
  (List.length (sanitize_filename text) <= 50)%nat.
Proof. unfold sanitize_filename, slice_to. apply firstn_le_length. Qed.

Lemma in_firstn {A : Type} (n : nat) (l : list A) (x : A) :
  In x (firstn n l) -> In x l.
Proof.
  intros H. rewrite <- (firstn_skipn n l). apply in_or_app. left. exact H.
Qed.

Lemma sanitize_filename_chars (text : str) :
  Forall (fun c => ~ In c unsafe_filename_chars /\ c <> 32)
         (sanitize_filename text).
Proof.
  rewrite sanitize_filename_map. apply Forall_forall. intros c Hc.
  apply in_firstn in Hc. apply in_map_iff in Hc.
  destruct Hc as (x & Hx & Hin). apply filter_In in Hin.
  destruct Hin as [_ Hsafe]. apply negb_true_iff in Hsafe.
  unfold underscore_space in Hx. destruct (x =? 32) eqn:E.
  - subst c. split; [|discriminate].
    simpl. intros H. repeat (destruct H as [H|H]; [discriminate|]). exact H.
  - subst c. apply N.eqb_neq in E. split; [|exact E].
    intros H. apply char_in_In in H. congruence.
Qed.

(* ================================================================== *)
(** ** The record pipeline *)

Lemma has_required_false (f : Fields) :
  has_required f = false <-> materials_text f = [] \/ reg_no f = [].
Proof.
  unfold has_required. rewrite andb_false_iff, !truthy_false. reflexivity.
Qed.

Lemma has_required_true (f : Fields) :
  has_required f = true <-> materials_text f <> [] /\ reg_no f <> [].
Proof.
  unfold has_required. rewrite andb_true_iff, !truthy_true. reflexivity.
Qed.

Lemma passes_checks_rejection (f : Fields) :
  passes_checks f = true <-> rejection f = None.
Proof.
  unfold passes_checks, rejection.
  destruct (_ <? _)%Z; simpl; [split; discriminate|].
  destruct (contains_non_english_chars (materials_text f)); simpl;
    [split; discriminate|].
  destruct (contains_non_english_chars (reg_no f)); simpl;
    [split; discriminate|].
  destruct (truthy (per_no f) && contains_non_english_chars (per_no f)); simpl;
    split; congruence.
Qed.

(** *** Reading the frame *)

Lemma in_row_In (cols : list str) (label : str) :
  In label cols -> in_row cols label = true.
Proof.
  intros H. unfold in_row. apply existsb_exists.
  exists label. split; [exact H|]. apply str_eqb_eq. reflexivity.
Qed.

Lemma row_get_absent (cols : list str) :
  forall (row : list cell) (label : str),
    ~ In label cols -> row_get cols row label = [].
Proof.
  induction cols as [|c cols IH]; intros row label H; [reflexivity|].
  cbn [row_get]. destruct (str_eqb c label) eqn:E.
  - apply str_eqb_eq in E. subst c. exfalso. apply H. left. reflexivity.
  - apply IH. intros Hin. apply H. right. exact Hin.
Qed.

Lemma nth_tl {A : Type} (l : list A) (k : nat) (d : A) :
  nth k (tl l) d = nth (S k) l d.
Proof. destruct l; [destruct k; reflexivity|reflexivity]. Qed.

(** With distinct labels, the lookup by the label of column [k] gives the
    one cell at position [k]. *)
Lemma row_get_unique (cols : list str) :
  NoDup cols ->
  forall (row : list cell) (k : nat),
    (k < List.length cols)%nat ->
    row_get cols row (nth k cols []) = [nth k row NA].
Proof.
  induction 1 as [|c cs Hc _ IH]; intros row k Hk; [simpl in Hk; lia|].
  destruct k as [|k]; cbn [row_get nth].
  - assert (E : str_eqb c c = true) by (apply str_eqb_eq; reflexivity).
    rewrite E, (row_get_absent cs (tl row) c Hc).
    destruct row; reflexivity.
  - simpl in Hk.
    assert (E : str_eqb c (nth k cs []) = false).
    { apply str_eqb_neq. intros ->. apply Hc. apply nth_In. lia. }
    rewrite E, IH by lia. rewrite nth_tl. reflexivity.
Qed.

Lemma row_get_length (cols : list str) :
  forall (row : list cell) (label : str),
    List.length (row_get cols row label) = label_count cols label.
Proof.
  unfold label_count.
  induction cols as [|c cols IH]; intros row label; [reflexivity|].
  cbn [row_get filter]. destruct (str_eqb c label); cbn [List.length];
    rewrite IH; reflexivity.
Qed.

Lemma label_count_absent (cols : list str) (label : str) :
  ~ In label cols -> label_count cols label = 0%nat.
Proof.
  intros H. rewrite <- (row_get_length cols [] label).
  rewrite (row_get_absent cols [] label H). reflexivity.
Qed.

Lemma label_count_nodup (cols : list str) (label : str) :
  NoDup cols -> In label cols -> label_count cols label = 1%nat.
Proof.
  induction 1 as [|c cs Hc _ IH]; intros Hin; [contradiction|].
  unfold label_count. cbn [filter].
  destruct (str_eqb c label) eqn:E.
  - apply str_eqb_eq in E. subst c. cbn [List.length].
    fold (label_count cs label). rewrite (label_count_absent cs label Hc).
    reflexivity.
  - apply str_eqb_neq in E. destruct Hin as [Hin|Hin]; [congruence|].
    apply IH. exact Hin.
Qed.

Lemma looked_up_incl (cols : list str) (label : str) :
  In label (looked_up cols) -> In label cols.
Proof.
  unfold looked_up.
  destruct cols as [|c0 [|c1 [|c2 others]]]; try contradiction.
  intros [<-|[<-|[<-|H]]]; simpl; auto.
  apply filter_In in H. destruct H as [H _].
  right. right. right.
  rewrite <- (firstn_skipn 3 others). apply in_or_app. left. exact H.
Qed.

Lemma reads_nodup (cols : list str) : NoDup cols -> reads cols = true.
Proof.
  intros H. unfold reads. apply forallb_forall. intros label Hin.
  apply Nat.eqb_eq. apply label_count_nodup; [exact H|].
  apply looked_up_incl. exact Hin.
Qed.

Lemma is_some_str_if_notna_of (cols : list str) (row : list cell) (label : str) :
  is_some (str_if_notna_of (row_get cols row label))
  = Nat.eqb (label_count cols label) 1.
Proof.
  rewrite <- (row_get_length cols row label).
  destruct (row_get cols row label) as [|c [|d v]]; reflexivity.
Qed.

Lemma is_some_identifier_of (cols : list str) (row : list cell) (label : str)
      (index : Z) :
  is_some (identifier_of (row_get cols row label) index)
  = Nat.eqb (label_count cols label) 1.
Proof.
  rewrite <- (row_get_length cols row label).
  destruct (row_get cols row label) as [|c [|d v]]; reflexivity.
Qed.

Lemma is_some_optional_field (cols : list str) (row : list cell) (k : nat) :
  is_some (optional_field cols (nth_error cols k) row)
  = match nth_error cols k with
    | Some label =>
        if truthy label then Nat.eqb (label_count cols label) 1 else true
    | None => true
    end.
Proof.
  unfold optional_field.
  destruct (nth_error cols k) as [label|] eqn:N; [|reflexivity].
  rewrite (in_row_In cols label (nth_error_In _ _ N)).
  destruct (truthy label); cbn [andb]; [|reflexivity].
  apply is_some_str_if_notna_of.
Qed.

(** Whether a row can be read depends on the labels only. *)
Lemma is_some_read_fields (c0 c1 c2 : str) (others : list str)
      (index : Z) (row : list cell) :
  is_some (read_fields (c0 :: c1 :: c2 :: others) c0 c1 c2
             (nth_error (c0 :: c1 :: c2 :: others) 3)
             (nth_error (c0 :: c1 :: c2 :: others) 4)
             (nth_error (c0 :: c1 :: c2 :: others) 5) index row)
  = reads (c0 :: c1 :: c2 :: others).
Proof.
  unfold reads, looked_up. cbn [forallb].
  set (cols := c0 :: c1 :: c2 :: others).
  pose proof (is_some_str_if_notna_of cols row c1) as A1.
  pose proof (is_some_str_if_notna_of cols row c2) as A2.
  pose proof (is_some_identifier_of cols row c0 index) as A0.
  pose proof (is_some_optional_field cols row 3) as A3.
  pose proof (is_some_optional_field cols row 4) as A4.
  pose proof (is_some_optional_field cols row 5) as A5.
  unfold read_fields.
  destruct (str_if_notna_of (row_get cols row c1)); cbn [is_some] in A1;
    rewrite <- A1; [|reflexivity].
  destruct (str_if_notna_of (row_get cols row c2)); cbn [is_some] in A2;
    rewrite <- A2; [|reflexivity].
  destruct (identifier_of (row_get cols row c0) index); cbn [is_some] in A0;
    rewrite <- A0; [|reflexivity].
  cbn [andb].
  set (o3 := optional_field cols (nth_error cols 3) row) in *.
  set (o4 := optional_field cols (nth_error cols 4) row) in *.
  set (o5 := optional_field cols (nth_error cols 5) row) in *.
  clearbody o3 o4 o5.
  change (nth_error cols 3) with (nth_error others 0) in A3.
  change (nth_error cols 4) with (nth_error others 1) in A4.
  change (nth_error cols 5) with (nth_error others 2) in A5.
  destruct others as [|l3 [|l4 [|l5 others']]];
    cbn [nth_error firstn filter] in *;
    destruct o3, o4, o5; cbn [is_some] in *;
    repeat match goal with
           | |- context [truthy ?l] => destruct (truthy l)
           end;
    cbn [filter forallb andb] in *;
    try discriminate;
    repeat match goal with
           | H : _ = Nat.eqb _ 1 |- _ => rewrite <- H; clear H
           end;
    reflexivity.
Qed.

(** With distinct labels every field is read, by position. *)
Lemma optional_field_by_position (cols : list str) (row : list cell) (k : nat) :
  NoDup cols ->
  optional_field cols (nth_error cols k) row = Some (optional_at cols row k).
Proof.
  intros Hnd. unfold optional_field, optional_at.
  destruct (nth_error cols k) as [label|] eqn:N; [|reflexivity].
  rewrite (in_row_In cols label (nth_error_In _ _ N)).
  destruct (truthy label); cbn [andb]; [|reflexivity].
  assert (Hk : (k < List.length cols)%nat).
  { apply nth_error_Some. rewrite N. discriminate. }
  pose proof (row_get_unique cols Hnd row k Hk) as G.
  apply (nth_error_nth _ _ []) in N. unfold str in *. rewrite N in G.
  rewrite G. reflexivity.
Qed.

Lemma read_fields_by_position (c0 c1 c2 : str) (others : list str)
      (index : Z) (row : list cell) :
  NoDup (c0 :: c1 :: c2 :: others) ->
  read_fields (c0 :: c1 :: c2 :: others) c0 c1 c2
    (nth_error (c0 :: c1 :: c2 :: others) 3)
    (nth_error (c0 :: c1 :: c2 :: others) 4)
    (nth_error (c0 :: c1 :: c2 :: others) 5) index row
  = Some (fields_by_position (c0 :: c1 :: c2 :: others) index row).
Proof.
  intros Hnd. set (cols := c0 :: c1 :: c2 :: others) in *.
  pose proof (row_get_unique cols Hnd row 0 ltac:(simpl; lia)) as G0.
  pose proof (row_get_unique cols Hnd row 1 ltac:(simpl; lia)) as G1.
  pose proof (row_get_unique cols Hnd row 2 ltac:(simpl; lia)) as G2.
  cbn [nth cols] in G0, G1, G2. fold cols in G0, G1, G2.
  unfold read_fields. rewrite G0, G1, G2.
  rewrite !(optional_field_by_position cols row _ Hnd).
  cbn [str_if_notna_of identifier_of]. unfold fields_by_position.
  do 2 f_equal. destruct (nth 0 row NA); reflexivity.
Qed.

Lemma nth_error_indexed {A : Type} (l : list A) :
  forall (start i : nat) (x : A),
    nth_error l i = Some x ->
    nth_error (combine (map Z.of_nat (seq start (List.length l))) l) i
    = Some (Z.of_nat (start + i), x).
Proof.
  induction l as [|y l IH]; intros start i x H; [destruct i; discriminate|].
  destruct i as [|i]; cbn [List.length seq map combine nth_error] in *.
  - injection H as ->. rewrite Nat.add_0_r. reflexivity.
  - rewrite (IH (S start) i x H). do 3 f_equal. lia.
Qed.

Lemma iterrows_length (df : DataFrame) :
  List.length (iterrows df) = List.length (rows df).
Proof.
  unfold iterrows. rewrite length_combine, length_map, length_seq.
  apply Nat.min_id.
Qed.

Lemma fields_of_by_position (df : DataFrame) :
  (3 <= List.length (columns df))%nat ->
  NoDup (columns df) ->
  fields_of df
  = map (fun ir => fields_by_position (columns df) (fst ir) (snd ir))
        (iterrows df).
Proof.
  intros Hcols Hnd. unfold fields_of.
  destruct (columns df) as [|c0 [|c1 [|c2 others]]] eqn:E; simpl in Hcols;
    try lia.
  induction (iterrows df) as [|ir l IH]; [reflexivity|].
  cbn [flat_map map]. rewrite IH.
  rewrite (read_fields_by_position c0 c1 c2 others _ _ Hnd). reflexivity.
Qed.

Lemma fields_of_length (df : DataFrame) :
  (3 <= List.length (columns df))%nat ->
  NoDup (columns df) ->
  List.length (fields_of df) = List.length (rows df).
Proof.
  intros Hcols Hnd. rewrite (fields_of_by_position df Hcols Hnd).
  rewrite length_map. apply iterrows_length.
Qed.

Lemma fields_of_length_le (df : DataFrame) :
  (List.length (fields_of df) <= List.length (rows df))%nat.
Proof.
  rewrite <- iterrows_length. unfold fields_of.
  destruct (columns df) as [|c0 [|c1 [|c2 others]]]; simpl; try lia.
  induction (iterrows df) as [|ir l IH]; [simpl; lia|].
  cbn [flat_map]. rewrite length_app.
  destruct (read_fields _ _ _ _ _ _ _ _ _); simpl; lia.
Qed.

(** The fields of the row at index [i], with distinct labels. *)
Lemma fields_of_nth (df : DataFrame) (i : nat) (row : list cell) :
  (3 <= List.length (columns df))%nat ->
  NoDup (columns df) ->
  nth_error (rows df) i = Some row ->
  nth_error (fields_of df) i
  = Some (fields_by_position (columns df) (Z.of_nat i) row).
Proof.
  intros Hcols Hnd Hrow. rewrite (fields_of_by_position df Hcols Hnd).
  unfold iterrows.
  rewrite nth_error_map, (nth_error_indexed (rows df) 0 i row Hrow).
  reflexivity.
Qed.

Section PipelineFacts.

Variable float_repr : float -> str.
Variable unicode_upper : char -> str.
Variable HAS_CAIROSVG : bool.
Variable svg2pdf : str -> option bytes.

#[local] Abbreviation outcome :=
  (row_outcome float_repr unicode_upper HAS_CAIROSVG svg2pdf).
#[local] Abbreviation process :=
  (process_fields float_repr unicode_upper HAS_CAIROSVG svg2pdf).
#[local] Abbreviation conv := (converted HAS_CAIROSVG svg2pdf).
#[local] Abbreviation svg := (svg_of float_repr unicode_upper).
#[local] Abbreviation dropped :=
  (conversion_dropped float_repr unicode_upper HAS_CAIROSVG svg2pdf).
#[local] Abbreviation generate :=
  (generate_label2_from_dataframe float_repr unicode_upper HAS_CAIROSVG svg2pdf).

(** The loop body on a state [(pdf_files, warnings)], case by case. *)
Lemma process_fields_cases (t : str) (f : Fields)
      (pdf_files : list (str * bytes)) (warnings : list str) :
  process t f (pdf_files, warnings)
  = if negb (has_required f) then (pdf_files, warnings)
    else match rejection f with
         | Some reason =>
             (pdf_files, warnings ++ [not_generated (identifier f) reason])
         | None =>
             (pdf_files ++ conv (pdf_filename_of f) (svg t f), warnings)
         end.
Proof.
  unfold process_fields, has_required, rejection.
  rewrite negb_andb.
  destruct (negb (truthy (materials_text f)) || negb (truthy (reg_no f)));
    [reflexivity|]. cbn [negb].
  destruct (_ <? _)%Z; [reflexivity|].
  destruct (contains_non_english_chars (materials_text f)); [reflexivity|].
  destruct (contains_non_english_chars (reg_no f)); [reflexivity|].
  destruct (truthy (per_no f) && contains_non_english_chars (per_no f));
    [reflexivity|].
  unfold converted, svg_of, pdf_filename_of.
  destruct HAS_CAIROSVG; [|rewrite app_nil_r; reflexivity].
  destruct (convert_svg_bytes_to_pdf_bytes _ _ _) as [b|];
    [|rewrite app_nil_r; reflexivity].
  destruct (truthy b); [reflexivity|rewrite app_nil_r; reflexivity].
Qed.

Lemma row_outcome_cases (t : str) (f : Fields) :
  outcome t f
  = if negb (has_required f) then ([], [])
    else match rejection f with
         | Some reason => ([], [not_generated (identifier f) reason])
         | None => (conv (pdf_filename_of f) (svg t f), [])
         end.
Proof.
  unfold row_outcome. rewrite process_fields_cases. reflexivity.
Qed.

(** The loop body only appends, and what it appends does not depend on
    the state. *)
Lemma process_fields_appends (t : str) (f : Fields)
      (pdf_files : list (str * bytes)) (warnings : list str) :
  process t f (pdf_files, warnings)
  = (pdf_files ++ fst (outcome t f), warnings ++ snd (outcome t f)).
Proof.
  rewrite row_outcome_cases, process_fields_cases.
  destruct (negb (has_required f)); simpl; [rewrite !app_nil_r; reflexivity|].
  destruct (rejection f); simpl; rewrite ?app_nil_r; reflexivity.
Qed.

Lemma fold_rows_none (t : str) {A : Type} (read : A -> option Fields)
      (l : list A) :
  fold_left
    (fun st x =>
       match st with
       | None => None
       | Some lists =>
           match read x with
           | None => None
           | Some f => Some (process t f lists)
           end
       end) l None
  = None.
Proof. induction l as [|x l IH]; [reflexivity|exact IH]. Qed.

(** The loop: it returns when every row can be read, and then its two
    lists are the outcomes of the rows in order. *)
Lemma fold_rows (t : str) {A : Type} (read : A -> option Fields)
      (l : list A) :
  forall pdf_files warnings,
    fold_left
      (fun st x =>
         match st with
         | None => None
         | Some lists =>
             match read x with
             | None => None
             | Some f => Some (process t f lists)
             end
         end) l (Some (pdf_files, warnings))
    = if forallb (fun x => is_some (read x)) l
      then Some (pdf_files
                 ++ flat_map (fun f => fst (outcome t f))
                      (flat_map (fun x => match read x with
                                          | Some f => [f]
                                          | None => []
                                          end) l),
                 warnings
                 ++ flat_map (fun f => snd (outcome t f))
                      (flat_map (fun x => match read x with
                                          | Some f => [f]
                                          | None => []
                                          end) l))
      else None.
Proof.
  induction l as [|x l IH]; intros p w; cbn [fold_left forallb flat_map].
  - rewrite !app_nil_r. reflexivity.
  - destruct (read x) as [f|]; cbn [is_some andb].
    + rewrite process_fields_appends, IH.
      destruct (forallb _ l); [|reflexivity].
      cbn [app flat_map]. rewrite <- !app_assoc. reflexivity.
    + apply fold_rows_none.
Qed.

Lemma forallb_pointwise {A : Type} (f g : A -> bool) (l : list A) :
  (forall x, f x = g x) -> forallb f l = forallb g l.
Proof.
  intros E. induction l as [|x l IH]; simpl; [reflexivity|].
  rewrite E, IH. reflexivity.
Qed.

Lemma forallb_const {A : Type} (b : bool) (l : list A) :
  forallb (fun _ => b) l = negb (truthy l) || b.
Proof.
  induction l as [|x l IH]; [reflexivity|].
  cbn [forallb truthy negb orb]. rewrite IH.
  destruct b, l; reflexivity.
Qed.

Lemma iterrows_truthy (df : DataFrame) :
  truthy (iterrows df) = truthy (rows df).
Proof. unfold iterrows. destruct (rows df); reflexivity. Qed.

(** The run: it returns exactly on the readable frames. *)
Lemma generate_cases (t : str) (df : DataFrame) :
  generate t df
  = if readable df
    then Some (flat_map (fun f => fst (outcome t f)) (fields_of df),
               flat_map (fun f => snd (outcome t f)) (fields_of df))
    else None.
Proof.
  unfold generate_label2_from_dataframe, readable, fields_of.
  destruct (columns df) as [|c0 [|c1 [|c2 others]]] eqn:E; try reflexivity.
  cbn [List.length Nat.leb andb].
  rewrite (fold_rows t
             (fun ir => read_fields (c0 :: c1 :: c2 :: others) c0 c1 c2
                          (nth_error (c0 :: c1 :: c2 :: others) 3)
                          (nth_error (c0 :: c1 :: c2 :: others) 4)
                          (nth_error (c0 :: c1 :: c2 :: others) 5)
                          (fst ir) (snd ir))).
  rewrite (forallb_pointwise _ (fun _ => reads (c0 :: c1 :: c2 :: others)))
    by (intros ir; apply is_some_read_fields).
  rewrite forallb_const, iterrows_truthy. reflexivity.
Qed.

Lemma readable_nodup (df : DataFrame) :
  (3 <= List.length (columns df))%nat -> NoDup (columns df) ->
  readable df = true.
Proof.
  intros Hcols Hnd. unfold readable.
  rewrite (reads_nodup _ Hnd), orb_true_r, andb_true_r.
  apply Nat.leb_le. exact Hcols.
Qed.

(** On a frame of three columns or more with distinct labels the function
    returns, and its two lists are the outcomes of the rows, in order. *)
Lemma generate_label2_rows (t : str) (df : DataFrame) :
  (3 <= List.length (columns df))%nat -> NoDup (columns df) ->
  generate t df
  = Some (flat_map (fun f => fst (outcome t f)) (fields_of df),
          flat_map (fun f => snd (outcome t f)) (fields_of df)).
Proof.
  intros Hcols Hnd.
  rewrite generate_cases, (readable_nodup df Hcols Hnd). reflexivity.
Qed.

Lemma converted_length (name svg : str) :
  List.length (conv name svg)
  = if truthy (conv name svg) then 1%nat else 0%nat.
Proof.
  unfold converted. destruct HAS_CAIROSVG; [|reflexivity].
  destruct (convert_svg_bytes_to_pdf_bytes _ _ _) as [b|]; [|reflexivity].
  destruct (truthy b); reflexivity.
Qed.

(** One row: documents, warnings and dropped conversions add up to one
    for a row with both required fields, to zero for the others. *)
Lemma row_outcome_count (t : str) (f : Fields) :
  (List.length (fst (outcome t f)) + List.length (snd (outcome t f))
   + (if dropped t f then 1 else 0)
   = if has_required f then 1 else 0)%nat.
Proof.
  rewrite row_outcome_cases. unfold conversion_dropped.
  destruct (has_required f); simpl; [|reflexivity].
  destruct (rejection f) as [r|] eqn:R.
  - assert (P : passes_checks f = false).
    { destruct (passes_checks f) eqn:P; [|reflexivity].
      apply passes_checks_rejection in P. congruence. }
    rewrite P. reflexivity.
  - apply passes_checks_rejection in R. rewrite R. simpl.
    rewrite converted_length.
    destruct (truthy (conv _ _)); reflexivity.
Qed.

Lemma outcomes_count (t : str) (fs : list Fields) :
  (List.length (flat_map (fun f => fst (outcome t f)) fs)
   + List.length (flat_map (fun f => snd (outcome t f)) fs)
   + List.length (filter (dropped t) fs)
   = List.length (filter has_required fs))%nat.
Proof.
  induction fs as [|f fs IH]; simpl; [reflexivity|].
  rewrite !length_app.
  pose proof (row_outcome_count t f) as H.
  destruct (dropped t f), (has_required f); simpl; lia.
Qed.

End PipelineFacts.

(* ================================================================== *)
(** ** The claims on the pipeline *)

(** C1 as stated fails: a complete row whose conversion fails leaves
    neither a document nor a warning, so one row with both required
    fields faces zero documents and zero warnings. *)
Lemma C1_failed_conversion :
  generate_label2_from_dataframe no_repr no_upper true failing_svg2pdf
    (lit "{{material_text}}") one_row_frame
  = Some ([], [])
  /\ List.length (filter has_required (fields_of one_row_frame)) = 1%nat.
Proof. split; vm_compute; reflexivity. Qed.

(** C6 as stated fails: the same row is left without document and without
    warning although both of its required fields are present. *)
Lemma C6_failed_conversion_is_silent :
  has_required sample_fields = true
  /\ row_outcome no_repr no_upper true failing_svg2pdf
       (lit "{{material_text}}") sample_fields
     = ([], []).
Proof. split; vm_compute; reflexivity. Qed.

Lemma nth_error_split_at {A : Type} (l : list A) (i : nat) (x : A) :
  nth_error l i = Some x -> l = firstn i l ++ x :: skipn (S i) l.
Proof.
  revert i. induction l as [|y l IH]; intros [|i] H; try discriminate.
  - injection H as ->. reflexivity.
  - cbn [firstn skipn app]. f_equal. apply IH. exact H.
Qed.

Lemma nth_error_firstn_length {A : Type} (l : list A) (i : nat) (x : A) :
  nth_error l i = Some x -> List.length (firstn i l) = i.
Proof.
  intros H. apply firstn_length_le.
  assert (i < List.length l)%nat; [|lia].
  apply nth_error_Some. rewrite H. discriminate.
Qed.

Section PipelineClaims.

Variable float_repr : float -> str.
Variable unicode_upper : char -> str.
Variable HAS_CAIROSVG : bool.
Variable svg2pdf : str -> option bytes.

#[local] Abbreviation outcome :=
  (row_outcome float_repr unicode_upper HAS_CAIROSVG svg2pdf).
#[local] Abbreviation conv := (converted HAS_CAIROSVG svg2pdf).
#[local] Abbreviation svg := (svg_of float_repr unicode_upper).
#[local] Abbreviation dropped :=
  (conversion_dropped float_repr unicode_upper HAS_CAIROSVG svg2pdf).
#[local] Abbreviation generate :=
  (generate_label2_from_dataframe float_repr unicode_upper HAS_CAIROSVG svg2pdf).
#[local] Abbreviation documents :=
  (documents_of float_repr unicode_upper HAS_CAIROSVG svg2pdf).
#[local] Abbreviation warnings_from :=
  (warnings_of float_repr unicode_upper HAS_CAIROSVG svg2pdf).

(** The run around the row at index [i]: what the rows before it give,
    what it gives, what the rows after it give. *)
Lemma generate_at_row (t : str) (df : DataFrame) (i : nat) (row : list cell) :
  (3 <= List.length (columns df))%nat ->
  NoDup (columns df) ->
  nth_error (rows df) i = Some row ->
  generate t df
  = Some (documents t (firstn i (fields_of df))
          ++ fst (outcome t (fields_by_position (columns df) (Z.of_nat i) row))
          ++ documents t (skipn (S i) (fields_of df)),
          warnings_from t (firstn i (fields_of df))
          ++ snd (outcome t (fields_by_position (columns df) (Z.of_nat i) row))
          ++ warnings_from t (skipn (S i) (fields_of df))).
Proof.
  intros Hcols Hnd Hrow.
  pose proof (nth_error_split_at _ _ _ (fields_of_nth df i row Hcols Hnd Hrow))
    as E.
  rewrite (generate_label2_rows _ _ _ _ t df Hcols Hnd).
  set (before := firstn i (fields_of df)) in *.
  set (after := skipn (S i) (fields_of df)) in *.
  clearbody before after. rewrite E.
  unfold documents_of, warnings_of. rewrite !flat_map_app. reflexivity.
Qed.

(** C1, amended: on every frame of at least three columns with distinct
    labels the run returns; the rows are read one for one, the row at
    index [i] by position; and the documents, the warnings and the rows
    that passed every check but whose conversion gave no bytes (converter
    missing, failed, or empty result) together number the rows whose
    composition text and registration number are both non-empty; so
    documents plus warnings equal that number whenever no conversion is
    dropped.  The two lists are the outcomes of the rows in order, and a
    row missing a required field adds neither a document nor a warning. *)
Theorem C1_documents_and_warnings (t : str) (df : DataFrame) :
  (3 <= List.length (columns df))%nat ->
  NoDup (columns df) ->
  exists pdf_files warnings,
    generate t df = Some (pdf_files, warnings)
    /\ List.length (fields_of df) = List.length (rows df)
    /\ (forall i row,
          nth_error (rows df) i = Some row ->
          nth_error (fields_of df) i
          = Some (fields_by_position (columns df) (Z.of_nat i) row))
    /\ pdf_files = flat_map (fun f => fst (outcome t f)) (fields_of df)
    /\ warnings = flat_map (fun f => snd (outcome t f)) (fields_of df)
    /\ (List.length pdf_files + List.length warnings
        + List.length (filter (dropped t) (fields_of df))
        = List.length (filter has_required (fields_of df)))%nat
    /\ ((forall f, In f (fields_of df) -> dropped t f = false) ->
        (List.length pdf_files + List.length warnings
         = List.length (filter has_required (fields_of df)))%nat)
    /\ (forall f, has_required f = false -> outcome t f = ([], [])).
Proof.
  intros Hcols Hnd.
  eexists; eexists.
  split; [apply generate_label2_rows; assumption|].
  split; [apply fields_of_length; assumption|].
  split; [intros i row Hrow; apply fields_of_nth; assumption|].
  split; [reflexivity|]. split; [reflexivity|].
  split; [apply outcomes_count|].
  split.
  - intros Hnone.
    rewrite <- (outcomes_count float_repr unicode_upper HAS_CAIROSVG svg2pdf t).
    assert (E : filter (dropped t) (fields_of df) = []).
    { induction (fields_of df) as [|f fs IH]; [reflexivity|].
      simpl. rewrite (Hnone f (or_introl eq_refl)).
      apply IH. intros g Hg. apply Hnone. right. exact Hg. }
    rewrite E. simpl. lia.
  - intros f Hf. rewrite row_outcome_cases, Hf. reflexivity.
Qed.

(** C5: on a frame of at least three columns with distinct labels, a row
    whose composition text (cell 1) and registration number (cell 2) are
    non-empty and whose composition text has more than 15 non-blank lines
    adds no document and exactly one warning to the run, between what the
    rows before it and the rows after it add: the identifier followed by
    the fixed text, the identifier being the text of cell 0, or label_ and
    the index of the row when that cell is missing; and the lines counted
    are the lines the layout engine emits a fragment for. *)
Theorem C5_too_many_lines
        (t : str) (df : DataFrame) (i : nat) (row : list cell) :
  (3 <= List.length (columns df))%nat ->
  NoDup (columns df) ->
  nth_error (rows df) i = Some row ->
  str_if_notna (nth 1 row NA) <> [] ->
  str_if_notna (nth 2 row NA) <> [] ->
  (15 < List.length (non_empty_lines (str_if_notna (nth 1 row NA))))%nat ->
  generate t df
  = Some (documents t (firstn i (fields_of df))
          ++ documents t (skipn (S i) (fields_of df)),
          warnings_from t (firstn i (fields_of df))
          ++ [(match nth 0 row NA with
               | Text s => s
               | NA => lit "label_" ++ str_of_int (Z.of_nat i)
               end)
              ++ lit " label is not generated, reason: material text larger than 15 lines."]
          ++ warnings_from t (skipn (S i) (fields_of df)))
  /\ List.length (firstn i (fields_of df)) = i
  /\ List.length (fields_of df) = List.length (rows df)
  /\ List.length (non_empty_lines (str_if_notna (nth 1 row NA)))
     = List.length (tspan_elements float_repr (str_if_notna (nth 1 row NA))
                      15.99%float).
Proof.
  intros Hcols Hnd Hrow Hm Hr Hlines.
  split; [|split; [|split]].
  - rewrite (generate_at_row t df i row Hcols Hnd Hrow).
    set (f := fields_by_position (columns df) (Z.of_nat i) row).
    assert (Hout : outcome t f
                   = ([], [identifier f
                           ++ lit " label is not generated, reason: material text larger than 15 lines."])).
    { rewrite row_outcome_cases.
      assert (Hreq : has_required f = true).
      { apply has_required_true. split; assumption. }
      rewrite Hreq. cbn [negb]. unfold rejection.
      assert (Hgt : (MAX_MATERIAL_LINES
                     <? Z.of_nat (List.length
                                    (non_empty_lines (materials_text f))))%Z
                    = true).
      { apply Z.ltb_lt. unfold MAX_MATERIAL_LINES, f. cbn [materials_text
          fields_by_position]. lia. }
      rewrite Hgt. reflexivity. }
    rewrite Hout. reflexivity.
  - apply (nth_error_firstn_length _ _ _
             (fields_of_nth df i row Hcols Hnd Hrow)).
  - apply fields_of_length; assumption.
  - apply non_empty_lines_are_fragments.
Qed.

(** C6, amended: a row whose composition text or registration number is
    empty gives no document and no warning; a row is left with neither
    exactly when one of the two is empty or when it passed every check
    and its conversion gave no bytes. *)
Theorem C6_silent_rows (t : str) (f : Fields) :
  ((materials_text f = [] \/ reg_no f = []) -> outcome t f = ([], []))
  /\ (outcome t f = ([], []) <->
      materials_text f = [] \/ reg_no f = []
      \/ (passes_checks f = true /\ conv (pdf_filename_of f) (svg t f) = [])).
Proof.
  rewrite row_outcome_cases.
  split.
  { intros H. apply has_required_false in H. rewrite H. reflexivity. }
  destruct (has_required f) eqn:Hreq; cbn [negb].
  - apply has_required_true in Hreq. destruct Hreq as [Hm Hr].
    destruct (rejection f) as [r|] eqn:R.
    + split; [discriminate|].
      intros [H|[H|[H _]]]; try contradiction.
      apply passes_checks_rejection in H. congruence.
    + apply passes_checks_rejection in R. split.
      * intros E. right. right. split; [exact R|]. congruence.
      * intros [H|[H|[_ H]]]; try contradiction. rewrite H. reflexivity.
  - apply has_required_false in Hreq. split; [|reflexivity].
    intros _. destruct Hreq as [H|H]; auto.
Qed.

(** C8: the file-name generator keeps the characters of a text outside
    the eleven stripped ones, writes an underscore for each space, and
    cuts the result at 50 characters; and on a frame of at least three
    columns with distinct labels, a row that passes every check and whose
    conversion gives bytes adds to the run, between what the rows before
    it and the rows after it add, one document named by the sanitised
    identifier of the row followed by -label2.pdf. *)
Theorem C8_file_name
        (t : str) (df : DataFrame) (i : nat) (row : list cell)
        (pdf_bytes : bytes) :
  (3 <= List.length (columns df))%nat ->
  NoDup (columns df) ->
  nth_error (rows df) i = Some row ->
  has_required (fields_by_position (columns df) (Z.of_nat i) row) = true ->
  passes_checks (fields_by_position (columns df) (Z.of_nat i) row) = true ->
  HAS_CAIROSVG = true ->
  svg2pdf (svg t (fields_by_position (columns df) (Z.of_nat i) row))
  = Some pdf_bytes ->
  pdf_bytes <> [] ->
  generate t df
  = Some (documents t (firstn i (fields_of df))
          ++ [(sanitize_filename
                 (match nth 0 row NA with
                  | Text s => s
                  | NA => lit "label_" ++ str_of_int (Z.of_nat i)
                  end)
               ++ lit "-label2.pdf", pdf_bytes)]
          ++ documents t (skipn (S i) (fields_of df)),
          warnings_from t (firstn i (fields_of df))
          ++ warnings_from t (skipn (S i) (fields_of df)))
  /\ List.length (firstn i (fields_of df)) = i
  /\ List.length (fields_of df) = List.length (rows df)
  /\ (forall text,
        sanitize_filename text
        = firstn 50 (map underscore_space
                       (filter (fun c => negb (char_in c unsafe_filename_chars))
                               text))
        /\ (List.length (sanitize_filename text) <= 50)%nat
        /\ Forall (fun c => ~ In c unsafe_filename_chars /\ c <> 32)
                  (sanitize_filename text))
  /\ unsafe_filename_chars = [60; 62; 58; 34; 47; 92; 124; 63; 42; 10; 13].
Proof.
  intros Hcols Hnd Hrow Hreq Hpass Hhas Hconv Hne.
  split; [|split; [|split; [|split]]].
  - rewrite (generate_at_row t df i row Hcols Hnd Hrow).
    set (f := fields_by_position (columns df) (Z.of_nat i) row) in *.
    assert (Hout : outcome t f
                   = ([(sanitize_filename (identifier f) ++ lit "-label2.pdf",
                        pdf_bytes)], [])).
    { rewrite row_outcome_cases, Hreq. cbn [negb].
      apply passes_checks_rejection in Hpass. rewrite Hpass.
      unfold converted, convert_svg_bytes_to_pdf_bytes, pdf_filename_of.
      rewrite Hhas. cbn [negb]. fold (svg t f). rewrite Hconv.
      apply truthy_true in Hne. rewrite Hne. reflexivity. }
    rewrite Hout. reflexivity.
  - apply (nth_error_firstn_length _ _ _
             (fields_of_nth df i row Hcols Hnd Hrow)).
  - apply fields_of_length; assumption.
  - intros text. split; [apply sanitize_filename_map|].
    split; [apply sanitize_filename_length|apply sanitize_filename_chars].
  - reflexivity.
Qed.


End PipelineClaims.

(* ================================================================== *)
(** ** The claims at a sample frame *)

Lemma mixed_frame_labels : NoDup (columns mixed_frame).
Proof.
  repeat constructor; simpl; intuition discriminate.
Qed.

Lemma C1_documents_and_warnings_witness :
  exists pdf_files warnings,
    generate_label2_from_dataframe no_repr no_upper true picky_svg2pdf
      label_template mixed_frame
    = Some (pdf_files, warnings)
    /\ List.length pdf_files = 1%nat /\ List.length warnings = 2%nat
    /\ List.length (filter (conversion_dropped no_repr no_upper true
                              picky_svg2pdf label_template)
                           (fields_of mixed_frame)) = 1%nat
    /\ List.length (filter has_required (fields_of mixed_frame)) = 4%nat
    /\ List.length (rows mixed_frame) = 5%nat.
Proof.
  destruct (C1_documents_and_warnings no_repr no_upper true picky_svg2pdf
              label_template mixed_frame)
    as (pdf_files & warnings & Hrun & _ & _ & Hdocs & Hwarns & _).
  - simpl. lia.
  - exact mixed_frame_labels.
  - exists pdf_files, warnings. split; [exact Hrun|].
    rewrite Hdocs, Hwarns. repeat split; vm_compute; reflexivity.
Defined.

Lemma C5_too_many_lines_witness :
  generate_label2_from_dataframe no_repr no_upper true echo_svg2pdf
    label_template mixed_frame
  = Some ([ (lit "P_1a-label2.pdf",
             map byte_of_char (lit "<text>REG.NO.12345</text>"));
            (lit "P-5-label2.pdf",
             map byte_of_char (lit "<text>REG.NO.5</text>")) ],
          [ lit "label_1 label is not generated, reason: material text larger than 15 lines.";
            lit "P-4 label is not generated, reason: PER # is not English input." ]).
Proof.
  refine (eq_trans
            (proj1 (C5_too_many_lines no_repr no_upper true echo_svg2pdf
                      label_template mixed_frame 1
                      [NA; Text sixteen_lines; Text (lit "777"); NA]
                      _ mixed_frame_labels eq_refl _ _ _)) _).
  - simpl. lia.
  - vm_compute. discriminate.
  - vm_compute. discriminate.
  - vm_compute. lia.
  - vm_compute. reflexivity.
Defined.

Lemma C8_file_name_witness :
  generate_label2_from_dataframe no_repr no_upper true echo_svg2pdf
    label_template mixed_frame
  = Some ([ (lit "P_1a-label2.pdf",
             map byte_of_char (lit "<text>REG.NO.12345</text>"));
            (lit "P-5-label2.pdf",
             map byte_of_char (lit "<text>REG.NO.5</text>")) ],
          [ lit "label_1 label is not generated, reason: material text larger than 15 lines.";
            lit "P-4 label is not generated, reason: PER # is not English input." ]).
Proof.
  refine (eq_trans
            (proj1 (C8_file_name no_repr no_upper true echo_svg2pdf
                      label_template mixed_frame 0
                      [Text (lit "P 1/a"); Text (lit "COTTON");
                       Text (lit "12345"); Text [0x20]]
                      (map byte_of_char (lit "<text>REG.NO.12345</text>"))
                      _ mixed_frame_labels eq_refl eq_refl eq_refl eq_refl _ _))
            _).
  - simpl. lia.
  - vm_compute. reflexivity.
  - vm_compute. discriminate.
  - vm_compute. reflexivity.
Defined.


(* ================================================================== *)
(** * Further properties of the code *)

(* ================================================================== *)
(** ** Substitution in a template *)

Section SubstitutionFacts.

Variable float_repr : float -> str.
Variable unicode_upper : char -> str.

#[local] Abbreviation substitute :=
  (replace_template_variables float_repr unicode_upper).

(** X1: a template that holds no opening brace holds no placeholder, and
    the substitution returns it as it is, whatever the field values. *)
Theorem template_without_brace_unchanged
        (svg_content material_text reg_number per_number firm origin : str) :
  ~ In brace svg_content ->
  substitute svg_content material_text reg_number per_number firm origin
  = svg_content.
Proof.
  intros H. cbv beta zeta delta [replace_template_variables].
  rewrite (replace_no_brace svg_content (lit "{{code_number}}") _
             (tl (lit "{{code_number}}")) eq_refl H).
  rewrite (replace_no_brace svg_content (lit "{{material_text}}") _
             (tl (lit "{{material_text}}")) eq_refl H).
  rewrite (replace_no_brace svg_content (lit "{{firm}}") _
             (tl (lit "{{firm}}")) eq_refl H).
  apply (replace_no_brace svg_content (lit "{{origin_country}}") _
           (tl (lit "{{origin_country}}")) eq_refl H).
Qed.

(** X2: in a template whose only brace-text is one firm placeholder, the
    placeholder is replaced by the trimmed firm name and the rest is kept,
    for a firm name without an opening brace. *)
Theorem firm_placeholder_in_context
        (pre post material_text reg_number per_number firm origin : str) :
  ~ In brace pre -> ~ In brace post -> ~ In brace firm ->
  substitute (pre ++ lit "{{firm}}" ++ post)
             material_text reg_number per_number firm origin
  = pre ++ strip firm ++ post.
Proof.
  intros Hpre Hpost Hfirm. cbv beta zeta delta [replace_template_variables].
  rewrite (replace_absent _ (lit "{{code_number}}"))
    by (apply (placeholder_absent _ (tl (lit "{{code_number}}")));
        [reflexivity|exact Hpre|reflexivity|exact Hpost]).
  rewrite (replace_absent _ (lit "{{material_text}}"))
    by (apply (placeholder_absent _ (tl (lit "{{material_text}}")));
        [reflexivity|exact Hpre|reflexivity|exact Hpost]).
  rewrite firm_value_strip.
  rewrite (replace_in_context (lit "{{firm}}") (strip firm) pre post
             (tl (lit "{{firm}}")) eq_refl Hpre Hpost).
  apply (replace_no_brace _ (lit "{{origin_country}}") _
           (tl (lit "{{origin_country}}")) eq_refl).
  intros Hin. apply in_app_or in Hin. destruct Hin as [Hin|Hin];
    [exact (Hpre Hin)|].
  apply in_app_or in Hin. destruct Hin as [Hin|Hin]; [|exact (Hpost Hin)].
  apply Hfirm. apply strip_incl. exact Hin.
Qed.

(** X3: in a template whose only brace-text is one origin_country
    placeholder, the placeholder is replaced by the mapped origin and the
    rest is kept, whatever the origin holds: it is the last replacement,
    so nothing scans its value again. *)
Theorem origin_placeholder_in_context
        (pre post material_text reg_number per_number firm origin : str) :
  ~ In brace pre -> ~ In brace post ->
  substitute (pre ++ lit "{{origin_country}}" ++ post)
             material_text reg_number per_number firm origin
  = pre ++ origin_country unicode_upper origin ++ post.
Proof.
  intros Hpre Hpost. cbv beta zeta delta [replace_template_variables].
  rewrite (replace_absent _ (lit "{{code_number}}"))
    by (apply (placeholder_absent _ (tl (lit "{{code_number}}")));
        [reflexivity|exact Hpre|reflexivity|exact Hpost]).
  rewrite (replace_absent _ (lit "{{material_text}}"))
    by (apply (placeholder_absent _ (tl (lit "{{material_text}}")));
        [reflexivity|exact Hpre|reflexivity|exact Hpost]).
  rewrite (replace_absent _ (lit "{{firm}}"))
    by (apply (placeholder_absent _ (tl (lit "{{firm}}")));
        [reflexivity|exact Hpre|reflexivity|exact Hpost]).
  apply (replace_in_context (lit "{{origin_country}}") _ pre post
           (tl (lit "{{origin_country}}")) eq_refl Hpre Hpost).
Qed.

(** X4: the replacements run one after the other over the whole text, so
    a value put in by an earlier one is scanned by the later ones: a
    registration number that spells the firm placeholder ends up as the
    firm name. *)
Theorem substituted_value_is_scanned_again
        (pre post material_text per_number firm origin : str) :
  ~ In brace pre -> ~ In brace post -> ~ In brace firm ->
  strip per_number = [] ->
  substitute (pre ++ lit "{{code_number}}" ++ post)
             material_text (lit "{{firm}}") per_number firm origin
  = pre ++ lit "REG.NO." ++ strip firm ++ post.
Proof.
  intros Hpre Hpost Hfirm Hper.
  cbv beta zeta delta [replace_template_variables].
  rewrite (code_number_blank_permit _ _ Hper).
  rewrite (replace_in_context (lit "{{code_number}}") _ pre post
             (tl (lit "{{code_number}}")) eq_refl Hpre Hpost).
  rewrite (replace_absent _ (lit "{{material_text}}"))
    by (apply (placeholder_absent _ (tl (lit "{{material_text}}")));
        [reflexivity|exact Hpre|reflexivity|exact Hpost]).
  rewrite firm_value_strip.
  assert (Hpre' : ~ In brace (pre ++ lit "REG.NO.")).
  { intros Hin. apply in_app_or in Hin. destruct Hin as [Hin|Hin];
      [exact (Hpre Hin)|].
    revert Hin. apply not_char_in. reflexivity. }
  replace (pre ++ (lit "REG.NO." ++ lit "{{firm}}") ++ post)
    with ((pre ++ lit "REG.NO.") ++ lit "{{firm}}" ++ post)
    by (rewrite <- !app_assoc; reflexivity).
  rewrite (replace_in_context (lit "{{firm}}") (strip firm) _ post
             (tl (lit "{{firm}}")) eq_refl Hpre' Hpost).
  rewrite (replace_no_brace _ (lit "{{origin_country}}") _
             (tl (lit "{{origin_country}}")) eq_refl).
  - rewrite <- app_assoc. reflexivity.
  - intros Hin. apply in_app_or in Hin. destruct Hin as [Hin|Hin];
      [exact (Hpre' Hin)|].
    apply in_app_or in Hin. destruct Hin as [Hin|Hin]; [|exact (Hpost Hin)].
    apply Hfirm. apply strip_incl. exact Hin.
Qed.

(** X5: the text written for the origin is never the bare code CN or VN. *)
Theorem origin_country_never_bare_code (origin : str) :
  origin_country unicode_upper origin <> lit "CN"
  /\ origin_country unicode_upper origin <> lit "VN".
Proof.
  unfold origin_country. rewrite origin_clean_strip.
  set (code := upper unicode_upper (strip origin)).
  unfold origin_map. cbn [dict_get].
  destruct (str_eqb (lit "CN") code) eqn:E1; [split; discriminate|].
  destruct (str_eqb (lit "VN") code) eqn:E2; [split; discriminate|].
  apply str_eqb_neq in E1. apply str_eqb_neq in E2.
  split; congruence.
Qed.

End SubstitutionFacts.

Lemma template_without_brace_unchanged_witness :
  replace_template_variables no_repr no_upper (lit "<svg><text>LABEL</text></svg>")
    (lit "COTTON") (lit "12345") (lit "67") (lit "ACME") (lit "cn")
  = lit "<svg><text>LABEL</text></svg>".
Proof.
  apply (template_without_brace_unchanged no_repr no_upper).
  apply not_char_in. reflexivity.
Defined.

Lemma firm_placeholder_in_context_witness :
  replace_template_variables no_repr no_upper
    (lit "<text>" ++ lit "{{firm}}" ++ lit "</text>")
    (lit "COTTON") (lit "12345") [] (lit "  ACME Ltd ") (lit "cn")
  = lit "<text>" ++ strip (lit "  ACME Ltd ") ++ lit "</text>".
Proof.
  apply (firm_placeholder_in_context no_repr no_upper);
    apply not_char_in; reflexivity.
Defined.

Lemma origin_placeholder_in_context_witness :
  replace_template_variables no_repr no_upper
    (lit "<text>" ++ lit "{{origin_country}}" ++ lit "</text>")
    (lit "COTTON") (lit "12345") [] [] (lit " vn ")
  = lit "<text>" ++ origin_country no_upper (lit " vn ") ++ lit "</text>".
Proof.
  apply (origin_placeholder_in_context no_repr no_upper);
    apply not_char_in; reflexivity.
Defined.

Lemma substituted_value_is_scanned_again_witness :
  replace_template_variables no_repr no_upper
    (lit "<text>" ++ lit "{{code_number}}" ++ lit "</text>")
    (lit "COTTON") (lit "{{firm}}") (lit " ") (lit "ACME") (lit "cn")
  = lit "<text>" ++ lit "REG.NO." ++ strip (lit "ACME") ++ lit "</text>".
Proof.
  apply (substituted_value_is_scanned_again no_repr no_upper);
    try (apply not_char_in; reflexivity).
  reflexivity.
Defined.

(* ================================================================== *)
(** ** More on the file-name generator *)

Lemma sanitize_clean_id (s : str) :
  clean_name s -> (List.length s <= 50)%nat -> sanitize_filename s = s.
Proof.
  intros Hclean Hlen. rewrite sanitize_filename_map.
  assert (E : map underscore_space
                  (filter (fun c => negb (char_in c unsafe_filename_chars)) s)
              = s).
  { induction Hclean as [|c s [Hc Hsp] _ IH]; [reflexivity|].
    cbn [filter].
    assert (Hin : char_in c unsafe_filename_chars = false).
    { destruct (char_in c unsafe_filename_chars) eqn:E; [|reflexivity].
      apply char_in_In in E. contradiction. }
    rewrite Hin. cbn [negb map]. unfold underscore_space at 1.
    apply N.eqb_neq in Hsp. rewrite Hsp.
    rewrite IH; [reflexivity|]. simpl in Hlen. lia. }
  rewrite E. apply firstn_all2. exact Hlen.
Qed.

(** X6: sanitising twice is sanitising once. *)
Theorem sanitize_filename_idempotent (text : str) :
  sanitize_filename (sanitize_filename text) = sanitize_filename text.
Proof.
  apply sanitize_clean_id.
  - apply sanitize_filename_chars.
  - apply sanitize_filename_length.
Qed.

(** X7: the names the generator leaves untouched are exactly those of at
    most 50 characters that hold no space and none of the eleven stripped
    characters. *)
Theorem sanitize_filename_fixed_points (text : str) :
  sanitize_filename text = text
  <-> (clean_name text /\ (List.length text <= 50)%nat).
Proof.
  split.
  - intros E. split.
    + unfold clean_name. rewrite <- E. apply sanitize_filename_chars.
    + rewrite <- E. apply sanitize_filename_length.
  - intros [Hclean Hlen]. apply sanitize_clean_id; assumption.
Qed.

(** X8: there is no step that tells names apart after the cut: once the
    sanitised identifier fills the 50 characters, whatever follows in the
    identifier is lost, so identifiers that differ only there get the
    same file name. *)
Theorem long_identifiers_collide (text more : str) :
  List.length (sanitize_filename text) = 50%nat ->
  sanitize_filename (text ++ more) = sanitize_filename text.
Proof.
  rewrite !sanitize_filename_map. intros Hlen.
  rewrite filter_app, map_app, firstn_app.
  set (kept := map underscore_space
                   (filter (fun c => negb (char_in c unsafe_filename_chars)) text))
    in *.
  assert (Hkept : (50 <= List.length kept)%nat).
  { rewrite length_firstn in Hlen. lia. }
  replace (50 - List.length kept)%nat with 0%nat by lia.
  cbn [firstn]. apply app_nil_r.
Qed.

Lemma long_identifiers_collide_witness :
  sanitize_filename (repeat 65 50 ++ lit "-RED")
  = sanitize_filename (repeat 65 50).
Proof.
  apply (long_identifiers_collide (repeat 65 50) (lit "-RED")).
  reflexivity.
Defined.

(* ================================================================== *)
(** ** More on the validator *)

Lemma str_in_middle (p a m b : str) :
  str_in p m = true -> str_in p (a ++ m ++ b) = true.
Proof.
  intros H. apply str_in_split in H. destruct H as (x & y & ->).
  apply str_in_split. exists (a ++ x), (y ++ b).
  rewrite <- !app_assoc. reflexivity.
Qed.

(** X9: what the validator flags, exactly: a text with a character above
    127 that is not one of the seven allowed symbols, a text with an ASCII
    double quote, or a text in which a comma is followed by a space. *)
Theorem flagged_texts (text : str) :
  contains_non_english_chars text = true
  <-> (exists c, In c text /\ 127 < c /\ ~ In c allowed_unicode)
      \/ In 0x22 text
      \/ (exists before after, text = before ++ [0x2C; 0x20] ++ after).
Proof.
  rewrite contains_non_english_chars_spec, spec_unsafe_above_ascii.
  rewrite !orb_true_iff, existsb_exists, char_in_In, str_in_split.
  rewrite <- or_assoc.
  apply or_iff_compat_r. apply or_iff_compat_r.
  split.
  - intros (c & Hin & H). apply andb_true_iff in H. destruct H as [H1 H2].
    exists c. split; [exact Hin|]. split; [apply N.ltb_lt; exact H1|].
    apply negb_true_iff in H2. apply not_char_in. exact H2.
  - intros (c & Hin & H1 & H2). exists c. split; [exact Hin|].
    apply andb_true_iff. split; [apply N.ltb_lt; exact H1|].
    apply negb_true_iff.
    destruct (char_in c allowed_unicode) eqn:E; [|reflexivity].
    apply char_in_In in E. contradiction.
Qed.

(** X10: every part of a text the validator accepts is accepted too; so
    are, for one, the lines of an accepted composition text. *)
Theorem accepted_text_has_accepted_parts (before part after : str) :
  contains_non_english_chars (before ++ part ++ after) = false ->
  contains_non_english_chars part = false.
Proof.
  intros H.
  destruct (contains_non_english_chars part) eqn:E; [|reflexivity].
  rewrite contains_non_english_chars_spec, spec_unsafe_above_ascii in E.
  rewrite contains_non_english_chars_spec, spec_unsafe_above_ascii in H.
  apply orb_false_iff in H. destruct H as [H H3].
  apply orb_false_iff in H. destruct H as [H1 H2].
  apply orb_true_iff in E. destruct E as [E|E].
  - apply orb_true_iff in E. destruct E as [E|E].
    + rewrite !existsb_app in H1.
      apply orb_false_iff in H1. destruct H1 as [_ H1].
      apply orb_false_iff in H1. destruct H1 as [H1 _].
      discriminate (eq_trans (eq_sym E) H1).
    + unfold char_in in *. rewrite !existsb_app in H2.
      apply orb_false_iff in H2. destruct H2 as [_ H2].
      apply orb_false_iff in H2. destruct H2 as [H2 _].
      discriminate (eq_trans (eq_sym E) H2).
  - rewrite (str_in_middle _ before part after E) in H3. discriminate.
Qed.

Lemma accepted_text_has_accepted_parts_witness :
  contains_non_english_chars (lit "100% COTTON") = false.
Proof.
  apply (accepted_text_has_accepted_parts (lit "SHELL: ") (lit "100% COTTON")
           (lit " LINING")).
  reflexivity.
Defined.

(* ================================================================== *)
(** ** More on the layout engine *)

Lemma lstrip_blank (s : str) :
  Forall (fun c => isspace c = true) s -> lstrip s = [].
Proof.
  induction 1 as [|c s Hc _ IH]; [reflexivity|].
  cbn [lstrip]. rewrite Hc. exact IH.
Qed.

Lemma strip_blank (s : str) :
  Forall (fun c => isspace c = true) s -> strip s = [].
Proof.
  intros H. unfold strip. rewrite (lstrip_blank s H). reflexivity.
Qed.

Lemma split_Forall (P : char -> Prop) (sep : char) (s : str) :
  Forall P s -> Forall (Forall P) (split sep s).
Proof.
  induction 1 as [|c s Hc _ IH]; cbn [split].
  - constructor; constructor.
  - destruct (c =? sep).
    + constructor; [constructor|exact IH].
    + destruct (split sep s) as [|piece pieces].
      * constructor; [|constructor]. constructor; [exact Hc|constructor].
      * inversion IH as [|? ? Hpiece Hpieces]; subst.
        constructor; [|exact Hpieces]. constructor; assumption.
Qed.

Lemma split_without_separator (sep : char) (s : str) :
  ~ In sep s -> split sep s = [s].
Proof.
  induction s as [|c s IH]; intros H; [reflexivity|].
  cbn [split].
  assert (E : (c =? sep) = false).
  { apply N.eqb_neq. intros ->. apply H. left. reflexivity. }
  rewrite E, IH; [reflexivity|]. intros Hin. apply H. right. exact Hin.
Qed.

Lemma fragments_from_blank (line_height : float) (lines : list str) :
  Forall (fun line => strip line = []) lines ->
  forall k, fragments_from line_height k lines = [].
Proof.
  induction 1 as [|line lines Hline _ IH]; intros k; [reflexivity|].
  cbn [fragments_from]. unfold fragment_at. rewrite Hline. cbn [truthy app].
  apply IH.
Qed.

Lemma blank_has_not (text : str) (b : char) :
  Forall (fun c => isspace c = true) text -> isspace b = false -> ~ In b text.
Proof.
  intros H Hb Hin. rewrite Forall_forall in H. specialize (H b Hin).
  congruence.
Qed.

Section MoreLayoutFacts.

Variable float_repr : float -> str.

(** X11: a composition text made of ASCII whitespace only is not empty
    for the pipeline, has no line to count and passes the validator, and
    the layout engine returns the empty string for it: such a row is
    rendered with an empty material block rather than skipped. *)
Theorem blank_composition_text (text : str) (line_height : float) :
  text <> [] ->
  Forall (fun c => isspace c = true /\ c <= 127) text ->
  truthy text = true
  /\ non_empty_lines text = []
  /\ contains_non_english_chars text = false
  /\ create_centered_tspan_elements float_repr text line_height = [].
Proof.
  intros Hne Hall.
  assert (Hsp : Forall (fun c => isspace c = true) text).
  { apply Forall_forall. intros c Hc. rewrite Forall_forall in Hall.
    apply (Hall c Hc). }
  assert (Hrep : replace text backslash_n [newline] = text).
  { apply replace_absent. apply str_in_no_first.
    apply (blank_has_not text 92 Hsp). reflexivity. }
  assert (Hlines : Forall (fun line => strip line = [])
                          (split newline text)).
  { pose proof (split_Forall _ newline text Hsp) as H.
    rewrite Forall_forall in *. intros line Hline.
    apply strip_blank. apply H. exact Hline. }
  split; [apply truthy_true; exact Hne|].
  split.
  { unfold non_empty_lines. rewrite Hrep.
    induction Hlines as [|line lines Hline _ IH]; [reflexivity|].
    cbn [filter]. rewrite Hline. exact IH. }
  split.
  { rewrite contains_non_english_chars_spec.
    apply orb_false_iff. split; [apply orb_false_iff; split|].
    - rewrite spec_unsafe_above_ascii.
      clear - Hall. induction Hall as [|c s [_ Hc] _ IH]; [reflexivity|].
      cbn [existsb]. apply N.ltb_ge in Hc. rewrite Hc. exact IH.
    - destruct (char_in 34 text) eqn:E; [|reflexivity].
      apply char_in_In in E.
      exfalso. apply (blank_has_not text 34 Hsp); [reflexivity|exact E].
    - apply str_in_no_first.
      apply (blank_has_not text 0x2C Hsp). reflexivity. }
  unfold create_centered_tspan_elements.
  rewrite tspan_elements_fragments. unfold logical_lines. rewrite Hrep.
  rewrite (fragments_from_blank line_height _ Hlines). reflexivity.
Qed.

(** X12: a text of one line (no newline, no backslash-n) that is not
    blank gives exactly one fragment, its trimmed content at the offset
    written 0, whatever the line height. *)
Theorem single_line_layout (text : str) (line_height : float) :
  ~ In newline text ->
  str_in backslash_n text = false ->
  strip text <> [] ->
  create_centered_tspan_elements float_repr text line_height
  = tspan_y (lit "0") (strip text).
Proof.
  intros Hnl Hbn Hne.
  unfold create_centered_tspan_elements.
  rewrite tspan_elements_fragments. unfold logical_lines.
  rewrite (replace_absent _ _ _ Hbn), (split_without_separator _ _ Hnl).
  cbn [fragments_from]. unfold fragment_at.
  apply truthy_true in Hne. rewrite Hne. cbn [Nat.eqb app join List.concat].
  apply app_nil_r.
Qed.

End MoreLayoutFacts.

Lemma blank_composition_text_witness :
  create_centered_tspan_elements no_repr [0x20; 0x09; newline; 0x20] 15.99%float
  = [].
Proof.
  apply (blank_composition_text no_repr [0x20; 0x09; newline; 0x20] 15.99%float).
  - discriminate.
  - repeat constructor; vm_compute; discriminate.
Defined.

Lemma single_line_layout_witness :
  create_centered_tspan_elements no_repr (lit "  100% COTTON ") 15.99%float
  = tspan_y (lit "0") (strip (lit "  100% COTTON ")).
Proof.
  apply (single_line_layout no_repr (lit "  100% COTTON ") 15.99%float).
  - apply not_char_in. reflexivity.
  - reflexivity.
  - vm_compute. discriminate.
Defined.

(* ================================================================== *)
(** ** More on the record pipeline *)

Lemma rejection_is_listed (f : Fields) (reason : str) :
  rejection f = Some reason -> In reason rejection_reasons.
Proof.
  unfold rejection, rejection_reasons.
  destruct (_ <? _)%Z; [intros [= <-]; simpl; auto|].
  destruct (contains_non_english_chars (materials_text f));
    [intros [= <-]; simpl; auto|].
  destruct (contains_non_english_chars (reg_no f));
    [intros [= <-]; simpl; auto|].
  destruct (truthy (per_no f) && contains_non_english_chars (per_no f));
    [intros [= <-]; simpl; auto 6|discriminate].
Qed.

Lemma forallb_false_exists {A : Type} (f : A -> bool) (l : list A) :
  forallb f l = false <-> exists x, In x l /\ f x = false.
Proof.
  induction l as [|y l IH]; cbn [forallb].
  - split; [discriminate|intros (x & [] & _)].
  - rewrite andb_false_iff, IH. split.
    + intros [H|(x & Hx & H)]; [exists y|exists x]; simpl; auto.
    + intros (x & [->|Hx] & H); [left; exact H|right; exists x; auto].
Qed.

Lemma label_count_pos (cols : list str) (label : str) :
  In label cols -> (1 <= label_count cols label)%nat.
Proof.
  unfold label_count. induction cols as [|c cols IH]; intros H; [contradiction|].
  cbn [filter]. destruct (str_eqb c label) eqn:E; [simpl; lia|].
  apply str_eqb_neq in E. destruct H as [H|H]; [congruence|].
  apply IH. exact H.
Qed.

(** The frames the function fails on. *)
Lemma readable_false (df : DataFrame) :
  readable df = false
  <-> (List.length (columns df) < 3)%nat
      \/ (rows df <> []
          /\ exists label, In label (looked_up (columns df))
                           /\ (1 < label_count (columns df) label)%nat).
Proof.
  unfold readable. rewrite andb_false_iff, Nat.leb_gt, orb_false_iff.
  rewrite negb_false_iff, truthy_true. unfold reads.
  rewrite forallb_false_exists.
  apply or_iff_compat_l. apply and_iff_compat_l.
  split; intros (label & Hin & H); exists label; (split; [exact Hin|]).
  - apply Nat.eqb_neq in H.
    pose proof (label_count_pos _ _ (looked_up_incl _ _ Hin)). lia.
  - apply Nat.eqb_neq. lia.
Qed.

Lemma generate_returns_columns
      (float_repr : float -> str) (unicode_upper : char -> str)
      (HAS_CAIROSVG : bool) (svg2pdf : str -> option bytes)
      (t : str) (df : DataFrame) (r : list (str * bytes) * list str) :
  generate_label2_from_dataframe float_repr unicode_upper HAS_CAIROSVG svg2pdf
    t df = Some r ->
  (3 <= List.length (columns df))%nat.
Proof.
  unfold generate_label2_from_dataframe.
  destruct (columns df) as [|c0 [|c1 [|c2 cs]]]; try discriminate.
  intros _. simpl. lia.
Qed.

Section MorePipelineFacts.

Variable float_repr : float -> str.
Variable unicode_upper : char -> str.
Variable HAS_CAIROSVG : bool.
Variable svg2pdf : str -> option bytes.

#[local] Abbreviation outcome :=
  (row_outcome float_repr unicode_upper HAS_CAIROSVG svg2pdf).
#[local] Abbreviation svg := (svg_of float_repr unicode_upper).
#[local] Abbreviation generate :=
  (generate_label2_from_dataframe float_repr unicode_upper HAS_CAIROSVG svg2pdf).

(** The run as the outcomes of its rows, from the fact that it returned. *)
Lemma generate_some (t : str) (df : DataFrame)
      (pdf_files : list (str * bytes)) (warnings : list str) :
  generate t df = Some (pdf_files, warnings) ->
  pdf_files = flat_map (fun f => fst (outcome t f)) (fields_of df)
  /\ warnings = flat_map (fun f => snd (outcome t f)) (fields_of df).
Proof.
  intros H. rewrite generate_cases in H.
  destruct (readable df); [|discriminate].
  injection H as <- <-. split; reflexivity.
Qed.

(** A document of a row: where it comes from. *)
Lemma row_document (t : str) (f : Fields) (doc : str * bytes) :
  In doc (fst (outcome t f)) ->
  has_required f = true /\ passes_checks f = true /\ HAS_CAIROSVG = true
  /\ svg2pdf (svg t f) = Some (snd doc) /\ snd doc <> []
  /\ fst doc = sanitize_filename (identifier f) ++ lit "-label2.pdf".
Proof.
  rewrite row_outcome_cases.
  destruct (has_required f); cbn [negb fst]; [|intros []].
  destruct (rejection f) eqn:R; cbn [fst]; [intros []|].
  apply passes_checks_rejection in R.
  unfold converted, convert_svg_bytes_to_pdf_bytes.
  destruct HAS_CAIROSVG; [|intros []]. cbn [negb].
  destruct (svg2pdf (svg t f)) as [b|] eqn:E; [|intros []].
  destruct (truthy b) eqn:Hb; [|intros []].
  intros [<-|[]]. cbn [fst snd].
  apply truthy_true in Hb. repeat split; auto.
Qed.

(** A warning of a row: what it says. *)
Lemma row_warning (t : str) (f : Fields) (w : str) :
  In w (snd (outcome t f)) ->
  has_required f = true
  /\ exists reason, rejection f = Some reason
                    /\ w = not_generated (identifier f) reason.
Proof.
  rewrite row_outcome_cases.
  destruct (has_required f); cbn [negb snd]; [|intros []].
  destruct (rejection f) as [reason|]; cbn [snd]; [|intros []].
  intros [<-|[]]. split; [reflexivity|]. exists reason. split; reflexivity.
Qed.

(** X13: the run fails exactly on two kinds of frame: those of fewer than
    three columns (the IndexError of the column lookup), rows or no rows,
    and those with at least one row on which a label the loop looks up is
    carried by more than one column (the ValueError of the first read). *)
Theorem run_fails_exactly_on (t : str) (df : DataFrame) :
  generate t df = None
  <-> (List.length (columns df) < 3)%nat
      \/ (rows df <> []
          /\ exists label, In label (looked_up (columns df))
                           /\ (1 < label_count (columns df) label)%nat).
Proof.
  rewrite <- readable_false, generate_cases.
  destruct (readable df); split; intros H; try reflexivity; discriminate.
Qed.

(** X14: a row gives at most one entry, a document or a warning and never
    both, so the two lists of a run together are no longer than the frame
    has rows. *)
Theorem at_most_one_entry_per_row
        (t : str) (df : DataFrame)
        (pdf_files : list (str * bytes)) (warnings : list str) :
  generate t df = Some (pdf_files, warnings) ->
  (List.length pdf_files + List.length warnings <= List.length (rows df))%nat
  /\ (forall f, (List.length (fst (outcome t f))
                 + List.length (snd (outcome t f)) <= 1)%nat).
Proof.
  intros H. split.
  - destruct (generate_some t df _ _ H) as [-> ->].
    pose proof (outcomes_count float_repr unicode_upper HAS_CAIROSVG svg2pdf
                  t (fields_of df)) as Hcount.
    pose proof (filter_length_le has_required (fields_of df)) as Hle.
    pose proof (fields_of_length_le df) as Hrows. lia.
  - intros f.
    pose proof (row_outcome_count float_repr unicode_upper HAS_CAIROSVG svg2pdf
                  t f) as Hcount.
    destruct (has_required f); lia.
Qed.

(** X16: without cairosvg a run returns no document at all. *)
Theorem no_document_without_cairosvg
        (t : str) (df : DataFrame)
        (pdf_files : list (str * bytes)) (warnings : list str) :
  HAS_CAIROSVG = false ->
  generate t df = Some (pdf_files, warnings) ->
  pdf_files = [].
Proof.
  intros Hno H. destruct (generate_some t df _ _ H) as [-> _]. clear H.
  induction (fields_of df) as [|f fs IH]; [reflexivity|].
  cbn [flat_map]. rewrite IH, app_nil_r.
  destruct (fst (outcome t f)) as [|doc docs] eqn:E; [reflexivity|].
  assert (Hin : In doc (fst (outcome t f))) by (rewrite E; left; reflexivity).
  apply row_document in Hin. destruct Hin as (_ & _ & Hhas & _). congruence.
Qed.

(** X17: every warning of a run is the identifier of a row that has both
    required fields, followed by the fixed text and one of the four
    reasons. *)
Theorem warnings_follow_the_pattern
        (t : str) (df : DataFrame)
        (pdf_files : list (str * bytes)) (warnings : list str) (w : str) :
  generate t df = Some (pdf_files, warnings) ->
  In w warnings ->
  exists f reason,
    In f (fields_of df) /\ has_required f = true
    /\ In reason rejection_reasons
    /\ w = identifier f ++ lit " label is not generated, reason: "
           ++ reason ++ lit ".".
Proof.
  intros H Hw. destruct (generate_some t df _ _ H) as [_ ->].
  apply in_flat_map in Hw. destruct Hw as (f & Hf & Hw).
  apply row_warning in Hw. destruct Hw as (Hreq & reason & Hr & ->).
  exists f, reason. split; [exact Hf|]. split; [exact Hreq|].
  split; [apply (rejection_is_listed f); exact Hr|reflexivity].
Qed.

(** X18: every document of a run belongs to a row that has both required
    fields and passed the four checks; it is named after the sanitised
    identifier of that row, and its content is what the converter
    returned for the filled template of that row, never empty. *)
Theorem documents_come_from_accepted_rows
        (t : str) (df : DataFrame)
        (pdf_files : list (str * bytes)) (warnings : list str)
        (doc : str * bytes) :
  generate t df = Some (pdf_files, warnings) ->
  In doc pdf_files ->
  exists f,
    In f (fields_of df) /\ has_required f = true /\ passes_checks f = true
    /\ svg2pdf (svg t f) = Some (snd doc) /\ snd doc <> []
    /\ fst doc = sanitize_filename (identifier f) ++ lit "-label2.pdf".
Proof.
  intros H Hdoc. destruct (generate_some t df _ _ H) as [-> _].
  apply in_flat_map in Hdoc. destruct Hdoc as (f & Hf & Hdoc).
  apply row_document in Hdoc.
  destruct Hdoc as (Hreq & Hpass & _ & Hconv & Hne & Hname).
  exists f. repeat split; assumption.
Qed.

(** X19: a document name of a run is at most 61 characters long and holds
    no space and none of the characters the generator strips, so no slash
    and no backslash: it names a file, not a path. *)
Theorem document_names_are_plain
        (t : str) (df : DataFrame)
        (pdf_files : list (str * bytes)) (warnings : list str)
        (doc : str * bytes) :
  generate t df = Some (pdf_files, warnings) ->
  In doc pdf_files ->
  (List.length (fst doc) <= 61)%nat
  /\ Forall (fun c => ~ In c unsafe_filename_chars /\ c <> 32) (fst doc).
Proof.
  intros H Hdoc. destruct (generate_some t df _ _ H) as [-> _].
  apply in_flat_map in Hdoc. destruct Hdoc as (f & _ & Hdoc).
  apply row_document in Hdoc. destruct Hdoc as (_ & _ & _ & _ & _ & ->).
  split.
  - rewrite length_app.
    pose proof (sanitize_filename_length (identifier f)) as Hlen.
    change (List.length (lit "-label2.pdf")) with 11%nat. lia.
  - apply Forall_app. split; [apply sanitize_filename_chars|].
    repeat constructor; try discriminate;
      apply not_char_in; reflexivity.
Qed.

(** X20: the material block of an emitted label never has more than 15
    fragments. *)
Theorem emitted_label_has_at_most_15_lines
        (t : str) (f : Fields) (doc : str * bytes) :
  In doc (fst (outcome t f)) ->
  (List.length (tspan_elements float_repr (materials_text f) 15.99%float)
   <= 15)%nat.
Proof.
  intros Hdoc. apply row_document in Hdoc. destruct Hdoc as (_ & Hpass & _).
  rewrite <- non_empty_lines_are_fragments.
  unfold passes_checks in Hpass.
  repeat (apply andb_true_iff in Hpass; destruct Hpass as [Hpass _]).
  apply negb_true_iff, Z.ltb_ge in Hpass. unfold MAX_MATERIAL_LINES in Hpass.
  lia.
Qed.

(** X21: the checks run in a fixed order and the first that fails gives
    the warning: for a row with both required fields and at most 15 lines,
    a flagged composition text is reported whatever the two numbers hold,
    a flagged registration number is reported only under an accepted
    composition text, and a flagged permit number only under both. *)
Theorem first_failing_check_is_reported (t : str) (f : Fields) :
  has_required f = true ->
  (List.length (non_empty_lines (materials_text f)) <= 15)%nat ->
  (contains_non_english_chars (materials_text f) = true ->
   outcome t f
   = ([], [not_generated (identifier f)
             (lit "material text is not English input")]))
  /\ (contains_non_english_chars (materials_text f) = false ->
      contains_non_english_chars (reg_no f) = true ->
      outcome t f
      = ([], [not_generated (identifier f) (lit "REG # is not English input")]))
  /\ (contains_non_english_chars (materials_text f) = false ->
      contains_non_english_chars (reg_no f) = false ->
      per_no f <> [] ->
      contains_non_english_chars (per_no f) = true ->
      outcome t f
      = ([], [not_generated (identifier f) (lit "PER # is not English input")])).
Proof.
  intros Hreq Hlines. rewrite row_outcome_cases, Hreq. cbn [negb].
  unfold rejection.
  assert (Hle : (MAX_MATERIAL_LINES
                 <? Z.of_nat (List.length (non_empty_lines (materials_text f))))%Z
                = false).
  { apply Z.ltb_ge. unfold MAX_MATERIAL_LINES. lia. }
  rewrite Hle.
  split; [intros ->; reflexivity|].
  split; [intros -> ->; reflexivity|].
  intros -> -> Hper ->. apply truthy_true in Hper. rewrite Hper. reflexivity.
Qed.

End MorePipelineFacts.

(** X15: the warnings of a run depend on the frame only: not on the
    template, not on the converter, not on whether cairosvg is there. *)
Theorem warnings_depend_on_the_frame_only
        (repr1 repr2 : float -> str) (upper1 upper2 : char -> str)
        (has1 has2 : bool) (svg2pdf1 svg2pdf2 : str -> option bytes)
        (t1 t2 : str) (df : DataFrame) :
  option_map snd
    (generate_label2_from_dataframe repr1 upper1 has1 svg2pdf1 t1 df)
  = option_map snd
      (generate_label2_from_dataframe repr2 upper2 has2 svg2pdf2 t2 df).
Proof.
  rewrite !generate_cases.
  destruct (readable df); [|reflexivity]. cbn [option_map snd].
  f_equal. induction (fields_of df) as [|f fs IH]; [reflexivity|].
  cbn [flat_map]. rewrite IH. f_equal.
  rewrite !row_outcome_cases.
  destruct (negb (has_required f)); [reflexivity|].
  destruct (rejection f); reflexivity.
Qed.

(** *** The pipeline properties at sample frames *)

(** The frame whose first two columns share a label: the first read of
    the loop raises. *)
Lemma run_fails_exactly_on_witness :
  generate_label2_from_dataframe no_repr no_upper true constant_svg2pdf
    label_template repeated_label_frame
  = None.
Proof.
  apply (run_fails_exactly_on no_repr no_upper true constant_svg2pdf
           label_template repeated_label_frame).
  right. split; [discriminate|].
  exists (lit "code"). split; [right; right; left; reflexivity|].
  vm_compute. lia.
Defined.

Lemma at_most_one_entry_per_row_witness :
  (List.length [(lit "P-1-label2.pdf", [x25])] + List.length (@nil str)
   <= List.length (rows one_row_frame))%nat.
Proof.
  apply (at_most_one_entry_per_row no_repr no_upper true constant_svg2pdf
           (lit "{{material_text}}") one_row_frame).
  vm_compute. reflexivity.
Defined.

Lemma no_document_without_cairosvg_witness :
  @nil (str * bytes) = [].
Proof.
  apply (no_document_without_cairosvg no_repr no_upper false constant_svg2pdf
           (lit "{{material_text}}") one_row_frame [] []).
  - reflexivity.
  - vm_compute. reflexivity.
Defined.

Lemma warnings_follow_the_pattern_witness :
  exists f reason,
    In f (fields_of flagged_frame) /\ has_required f = true
    /\ In reason rejection_reasons
    /\ lit "P-9 label is not generated, reason: material text is not English input."
       = identifier f ++ lit " label is not generated, reason: "
         ++ reason ++ lit ".".
Proof.
  apply (warnings_follow_the_pattern no_repr no_upper true constant_svg2pdf
           (lit "{{material_text}}") flagged_frame []
           [lit "P-9 label is not generated, reason: material text is not English input."]).
  - vm_compute. reflexivity.
  - left. reflexivity.
Defined.

Lemma documents_come_from_accepted_rows_witness :
  exists f,
    In f (fields_of one_row_frame) /\ has_required f = true
    /\ passes_checks f = true
    /\ constant_svg2pdf (svg_of no_repr no_upper (lit "{{material_text}}") f)
       = Some [x25]
    /\ [x25] <> []
    /\ lit "P-1-label2.pdf" = sanitize_filename (identifier f) ++ lit "-label2.pdf".
Proof.
  apply (documents_come_from_accepted_rows no_repr no_upper true
           constant_svg2pdf (lit "{{material_text}}") one_row_frame
           [(lit "P-1-label2.pdf", [x25])] [] (lit "P-1-label2.pdf", [x25])).
  - vm_compute. reflexivity.
  - left. reflexivity.
Defined.

Lemma document_names_are_plain_witness :
  (List.length (lit "P-1-label2.pdf") <= 61)%nat
  /\ Forall (fun c => ~ In c unsafe_filename_chars /\ c <> 32)
            (lit "P-1-label2.pdf").
Proof.
  apply (document_names_are_plain no_repr no_upper true
           constant_svg2pdf (lit "{{material_text}}") one_row_frame
           [(lit "P-1-label2.pdf", [x25])] [] (lit "P-1-label2.pdf", [x25])).
  - vm_compute. reflexivity.
  - left. reflexivity.
Defined.

Lemma emitted_label_has_at_most_15_lines_witness :
  (List.length (tspan_elements no_repr (materials_text sample_fields) 15.99%float)
   <= 15)%nat.
Proof.
  apply (emitted_label_has_at_most_15_lines no_repr no_upper true
           constant_svg2pdf (lit "{{firm}}") sample_fields
           (lit "P_1a-label2.pdf", [x25])).
  vm_compute. left. reflexivity.
Defined.

Lemma first_failing_check_is_reported_witness :
  row_outcome no_repr no_upper true constant_svg2pdf (lit "{{code_number}}")
    flagged_numbers_fields
  = ([], [lit "P-4 label is not generated, reason: REG # is not English input."]).
Proof.
  apply (proj1 (proj2 (first_failing_check_is_reported no_repr no_upper true
                         constant_svg2pdf (lit "{{code_number}}")
                         flagged_numbers_fields eq_refl
                         ltac:(vm_compute; lia))));
    reflexivity.
Defined.

(* ================================================================== *)
(** ** Reading the frame *)

(** X22: on a frame of exactly three columns every row has an empty permit
    number, firm and origin: the optional columns are never an error. *)
Theorem three_columns_leave_optional_fields_empty (df : DataFrame) (f : Fields) :
  List.length (columns df) = 3%nat ->
  In f (fields_of df) ->
  per_no f = [] /\ firm f = [] /\ origin f = [].
Proof.
  intros Hcols Hf. unfold fields_of in Hf.
  destruct (columns df) as [|c0 [|c1 [|c2 [|c3 cs]]]]; try discriminate.
  apply in_flat_map in Hf. destruct Hf as (ir & _ & Hf).
  unfold read_fields in Hf. cbn [nth_error optional_field] in Hf.
  destruct (str_if_notna_of _); [|contradiction].
  destruct (str_if_notna_of _); [|contradiction].
  destruct (identifier_of _ _); [|contradiction].
  destruct Hf as [<-|[]]. repeat split; reflexivity.
Qed.

Lemma three_columns_leave_optional_fields_empty_witness :
  per_no (hd sample_fields (fields_of one_row_frame)) = []
  /\ firm (hd sample_fields (fields_of one_row_frame)) = []
  /\ origin (hd sample_fields (fields_of one_row_frame)) = [].
Proof.
  apply (three_columns_leave_optional_fields_empty one_row_frame).
  - reflexivity.
  - left. reflexivity.
Defined.

(** X23: on a frame with distinct, non-empty column labels, the fields of
    the row at index [i] are its cells by position: composition text in
    cell 1, registration number in cell 2, permit number, firm and origin
    in cells 3, 4 and 5 where the frame has them and empty otherwise, a
    missing cell reading as the empty string; the identifier is cell 0,
    or label_ followed by [i] when that cell is missing. *)
Theorem fields_are_read_by_position (df : DataFrame) (i : nat) (row : list cell) :
  NoDup (columns df) ->
  Forall (fun label => label <> []) (columns df) ->
  (3 <= List.length (columns df))%nat ->
  nth_error (rows df) i = Some row ->
  List.length row = List.length (columns df) ->
  nth_error (fields_of df) i
  = Some {| materials_text := str_if_notna (nth 1 row NA);
            reg_no := str_if_notna (nth 2 row NA);
            identifier := match nth 0 row NA with
                          | Text s => s
                          | NA => lit "label_" ++ str_of_int (Z.of_nat i)
                          end;
            per_no := if (3 <? List.length (columns df))%nat
                      then str_if_notna (nth 3 row NA) else [];
            firm := if (4 <? List.length (columns df))%nat
                    then str_if_notna (nth 4 row NA) else [];
            origin := if (5 <? List.length (columns df))%nat
                      then str_if_notna (nth 5 row NA) else [] |}.
Proof.
  intros Hnd Hlab Hcols Hrow Hlen.
  rewrite (fields_of_nth df i row Hcols Hnd Hrow). f_equal.
  assert (Hopt : forall k,
             optional_at (columns df) row k
             = if (k <? List.length (columns df))%nat
               then str_if_notna (nth k row NA) else []).
  { intros k. unfold optional_at.
    destruct (k <? List.length (columns df))%nat eqn:E.
    - apply Nat.ltb_lt in E.
      destruct (nth_error (columns df) k) as [label|] eqn:N;
        [|apply nth_error_None in N; lia].
      assert (T : truthy label = true).
      { apply truthy_true. rewrite Forall_forall in Hlab. apply Hlab.
        apply (nth_error_In _ _ N). }
      rewrite T. reflexivity.
    - apply Nat.ltb_ge in E. apply nth_error_None in E. rewrite E.
      reflexivity. }
  unfold fields_by_position. rewrite !Hopt. reflexivity.
Qed.

Lemma fields_are_read_by_position_witness :
  nth_error (fields_of flagged_frame) 1
  = Some {| materials_text := []; reg_no := [];
            identifier := lit "label_1";
            per_no := []; firm := []; origin := [] |}.
Proof.
  apply (fields_are_read_by_position flagged_frame 1 [NA; NA; NA]).
  - repeat constructor; simpl; intuition discriminate.
  - repeat constructor; discriminate.
  - simpl. lia.
  - reflexivity.
  - reflexivity.
Defined.
